(** * salt/modules/boto_ec2.py: result normalisation and disambiguation

    A shallow embedding of the EC2 execution module: Python values, the
    exceptions the module raises or lets through, the remote control plane
    as an oracle that answers each request from the history of requests, and
    the module's functions as computations in a trace-and-exception monad. *)

From stdpp Require Import gmap strings list fin_maps pretty.

Set Warnings "-register-all".

Open Scope string_scope.
Open Scope Z_scope.
Open Scope list_scope.

(** ** Python values *)

(** Objects of the provider SDK ([VObj]) are attribute maps: the module
    probes them with [hasattr] and reads them with [getattr]. *)
Inductive value : Type :=
| VNone
| VBool (b : bool)
| VInt (z : Z)
| VStr (s : string)
| VList (l : list value)
| VDict (d : gmap string value)
| VObj (attrs : gmap string value).

(** [bool(v)] *)
Definition truthy (v : value) : bool :=
  match v with
  | VNone => false
  | VBool b => b
  | VInt z => negb (z =? 0)
  | VStr s => negb (String.eqb s "")
  | VList l => match l with [] => false | _ => true end
  | VDict d => negb (bool_decide (d = ∅))
  | VObj _ => true
  end.

(** [a or b] *)
Definition py_or (a b : value) : value := if truthy a then a else b.

(** [a and b] *)
Definition py_and (a b : value) : value := if truthy a then b else a.

(** [v == s] for a string literal [s] *)
Definition eq_str (v : value) (s : string) : bool :=
  match v with VStr s' => String.eqb s' s | _ => false end.

(** [v is None] *)
Definition is_None (v : value) : bool :=
  match v with VNone => true | _ => false end.

(** [v in (False, None)]: membership compares with [==], and [0 == False]. *)
Definition in_False_None (v : value) : bool :=
  match v with
  | VNone => true
  | VBool b => negb b
  | VInt z => z =? 0
  | _ => false
  end.

(** [hasattr(v, a)] for the attribute names the module probes: none of them
    is an attribute of a built-in value. *)
Definition hasattr (v : value) (a : string) : bool :=
  match v with VObj attrs => bool_decide (is_Some (attrs !! a)) | _ => false end.

(** ** Exceptions *)

(** [BotoServerError ec2 msg]: [ec2 = true] is the subclass
    [boto.exception.EC2ResponseError]. *)
Inductive exn : Type :=
| SaltInvocationError (msg : string)
| CommandExecutionError (msg : string)
| BotoServerError (ec2 : bool) (msg : string)
| TypeError
| KeyError
| IndexError
| AttributeError
| UnboundLocalError
| OtherError (msg : string).

Definition is_BotoServerError (e : exn) : bool :=
  match e with BotoServerError _ _ => true | _ => false end.

Definition is_EC2ResponseError (e : exn) : bool :=
  match e with BotoServerError true _ => true | _ => false end.

Definition is_KeyError (e : exn) : bool :=
  match e with KeyError => true | _ => false end.

(** ** Requests seen by the outside world *)

Inductive call : Type :=
| GetAllInstances (instance_ids : option (list value)) (filters : gmap string value)
| InstanceTerminate (instance : value)
| InstanceUpdate (instance : value)
| InstanceAddTag (instance key val : value)
| InstanceAddTags (instance tags : value)
| RunInstances (image_id instance_type key_name security_groups user_data placement : value)
| GetInstanceAttribute (instance_id : value) (attribute : string)
| ModifyInstanceAttribute (instance_id : value) (attribute : string) (attribute_value : value)
| GetAllNetworkInterfaces (ids : option (list value)) (filters : option (gmap string value))
| CreateNetworkInterface (subnet_id private_ip_address description groups : value)
| EniAddTag (eni key val : value)
| DeleteNetworkInterface (network_interface_id : value)
| AttachNetworkInterface (network_interface_id instance_id device_index : value)
| DetachNetworkInterface (attachment_id force : value)
| ModifyNetworkInterfaceAttribute (network_interface_id attr val attachment_id : value)
| GetSubnetAssociation (subnet_ids : list value)
| ConvertToGroupIds (groups vpc_id : value)
| Sleep (seconds : Z).

Definition trace := list call.

(** ** The monad: a trace of requests, and a result or an exception *)

Inductive outcome (A : Type) : Type :=
| Ret (a : A)
| Raise (e : exn)
| OutOfFuel.
Arguments Ret {A} a.
Arguments Raise {A} e.
Arguments OutOfFuel {A}.

Definition M (A : Type) : Type := trace -> outcome A * trace.

Definition ret {A} (a : A) : M A := fun t => (Ret a, t).

Definition raise {A} (e : exn) : M A := fun t => (Raise e, t).

Definition bind {A B} (m : M A) (k : A -> M B) : M B :=
  fun t =>
    match m t with
    | (Ret a, t') => k a t'
    | (Raise e, t') => (Raise e, t')
    | (OutOfFuel, t') => (OutOfFuel, t')
    end.

Notation "x <- m ;; k" := (bind m (fun x => k))
  (at level 100, m at next level, right associativity, only parsing).

(** [try: body  except <catches> as e: handler e] *)
Definition try_except {A} (body : M A) (catches : exn -> bool) (handler : exn -> M A) : M A :=
  fun t =>
    match body t with
    | (Raise e, t') => if catches e then handler e t' else (Raise e, t')
    | r => r
    end.

(** A request: it is appended to the trace, and the world answers it from
    the history before it. *)
Definition request {A} (c : call) (answer : trace -> exn + A) : M A :=
  fun t =>
    match answer t with
    | inl e => (Raise e, t ++ [c])
    | inr a => (Ret a, t ++ [c])
    end.

Definition lift {A} (r : exn + A) : M A :=
  match r with inl e => raise e | inr a => ret a end.

Fixpoint mapM {A B} (f : A -> M B) (l : list A) : M (list B) :=
  match l with
  | [] => ret []
  | x :: l' => y <- f x ;; ys <- mapM f l' ;; ret (y :: ys)
  end.

(** ** Operations on values that can raise *)

(** [getattr(v, a)] *)
Definition getattr (v : value) (a : string) : M value :=
  match v with
  | VObj attrs => match attrs !! a with Some x => ret x | None => raise AttributeError end
  | _ => raise AttributeError
  end.

(** [len(v)] *)
Definition py_len (v : value) : M Z :=
  match v with
  | VStr s => ret (Z.of_nat (String.length s))
  | VList l => ret (Z.of_nat (length l))
  | VDict d => ret (Z.of_nat (size d))
  | _ => raise TypeError
  end.

(** [v[0]] *)
Definition getitem0 (v : value) : M value :=
  match v with
  | VList l => match l with x :: _ => ret x | [] => raise IndexError end
  | VStr s => match s with String c _ => ret (VStr (String c "")) | EmptyString => raise IndexError end
  | VDict _ => raise KeyError
  | _ => raise TypeError
  end.

(** [d[k]] for a string key *)
Definition getitem (v : value) (k : string) : M value :=
  match v with
  | VDict d => match d !! k with Some x => ret x | None => raise KeyError end
  | _ => raise TypeError
  end.

(** [for x in v] *)
Definition py_iter (v : value) : M (list value) :=
  match v with
  | VList l => ret l
  | _ => raise TypeError
  end.

(** [k in d] for a dict held in a local variable *)
Definition has_key (d : gmap string value) (k : string) : bool :=
  bool_decide (is_Some (d !! k)).

(** [d.get(k)] *)
Definition dict_get (v : value) (k : string) : M value :=
  match v with
  | VDict d => ret (default VNone (d !! k))
  | _ => raise AttributeError
  end.

(** [six.iteritems(v)] *)
Definition iteritems (v : value) : M (list (string * value)) :=
  match v with
  | VDict d => ret (map_to_list d)
  | _ => raise AttributeError
  end.

(** Reading a local variable that an earlier statement may have left
    unassigned. *)
Definition local {A} (x : option A) : M A :=
  match x with Some a => ret a | None => raise UnboundLocalError end.

(** [{'message': s}] *)
Definition message (s : string) : value := VDict {[ "message" := VStr s ]}.

(** [str(v)] as [format] prints it; containers and objects print as a
    placeholder, no result of the module depends on their text. *)
Definition py_str (v : value) : string :=
  match v with
  | VNone => "None"
  | VBool true => "True"
  | VBool false => "False"
  | VInt z => pretty z
  | VStr s => s
  | VList _ => "[...]"
  | VDict _ => "{...}"
  | VObj _ => "<object>"
  end.

(** ** The outside world *)

(** A client handle of the provider SDK: each method answers from the
    history of requests and its arguments. *)
Record Conn : Type := {
  conn_get_all_instances :
    trace -> option (list value) -> gmap string value -> exn + list value;
  conn_run_instances :
    trace -> value -> value -> value -> value -> value -> value -> exn + value;
  conn_get_instance_attribute : trace -> value -> string -> exn + value;
  conn_modify_instance_attribute : trace -> value -> string -> value -> exn + value;
  conn_get_all_network_interfaces :
    trace -> option (list value) -> option (gmap string value) -> exn + list value;
  conn_create_network_interface :
    trace -> value -> value -> value -> value -> exn + value;
  conn_delete_network_interface : trace -> value -> exn + value;
  conn_attach_network_interface : trace -> value -> value -> value -> exn + value;
  conn_detach_network_interface : trace -> value -> value -> exn + value;
  conn_modify_network_interface_attribute :
    trace -> value -> value -> value -> value -> exn + value
}.

(** What the module reaches but does not define: [_get_conn] and
    [__utils__['boto.get_error']] (injected at load time), the methods of
    the SDK's instance and interface objects, and the two [__salt__]
    cross-module helpers.  [_get_conn] builds a handle or raises; it sends
    no request. *)
Record World : Type := {
  _get_conn : value -> value -> value -> value -> exn + Conn;
  get_error : exn -> value;
  instance_terminate : trace -> value -> exn + value;
  instance_update : trace -> value -> exn + value;
  instance_add_tag : trace -> value -> value -> value -> exn + value;
  instance_add_tags : trace -> value -> value -> exn + value;
  eni_add_tag : trace -> value -> value -> value -> exn + value;
  get_subnet_association :
    trace -> list value -> value * value * value * value -> exn + value;
  convert_to_group_ids :
    trace -> value -> value -> value * value * value * value -> exn + value
}.

(** ** Instances *)

Section Module.

Variable w : World.

(** The keyword arguments [find_instances] builds for the request:
    [instance_ids] when an id is given, and the [tag:Name] filter when a
    name is given. *)
Definition instance_ids_of (instance_id : value) : option (list value) :=
  if truthy instance_id then Some [instance_id] else None.

Definition name_filters (name : value) : gmap string value :=
  if truthy name then <["tag:Name" := name]> ∅ else ∅.

(** [for tag_name, tag_value in six.iteritems(tags): filters['tag:...'] = tag_value] *)
Definition tag_filters (tags : value) (filters : gmap string value)
    : M (gmap string value) :=
  if truthy tags then
    items <- iteritems tags ;;
    ret (foldl (fun acc kv => <["tag:" +:+ kv.1 := kv.2]> acc) filters items)
  else ret filters.

(** [[i for r in reservations for i in r.instances]] *)
Definition reservation_instances (reservations : list value) : M (list value) :=
  per <- mapM (fun r => i <- getattr r "instances" ;; py_iter i) reservations ;;
  ret (concat per).

(** [find_instances], source lines 110-153.  Logging is not modelled. *)
Definition find_instances
    (instance_id name tags region key keyid profile : value)
    (return_objs : bool) : M value :=
  conn <- lift (_get_conn w region key keyid profile) ;;
  try_except
    (let instance_ids := instance_ids_of instance_id in
     filters <- tag_filters tags (name_filters name) ;;
     reservations <- request (GetAllInstances instance_ids filters)
                       (fun t => conn_get_all_instances conn t instance_ids filters) ;;
     instances <- reservation_instances reservations ;;
     if truthy (VList instances) then
       if return_objs then ret (VList instances)
       else ids <- mapM (fun i => getattr i "id") instances ;; ret (VList ids)
     else ret (VBool false))
    is_BotoServerError
    (fun exc => ret (VBool false)).

(** [terminate], source lines 240-263. *)
Definition terminate (instance_id name region key keyid profile : value) : M value :=
  instances <- find_instances instance_id name VNone region key keyid profile true ;;
  if in_False_None instances then ret instances
  else
    n <- py_len instances ;;
    if n =? 1 then
      i <- getitem0 instances ;;
      _ <- request (InstanceTerminate i) (fun t => instance_terminate w t i) ;;
      ret (VBool true)
    else ret (VBool false).

(** [exists], source lines 293-313: the call to [find_instances] passes the
    selector only, so the finder sees the defaults ([None]) for [region],
    [key], [keyid] and [profile]. *)
Definition exists_ (instance_id name tags region key keyid profile : value) : M value :=
  instances <- find_instances instance_id name tags VNone VNone VNone VNone false ;;
  if truthy instances then ret (VBool true) else ret (VBool false).

(** The [while status == 'pending'] loop of [run], source lines 346-349.
    Python's loop has no bound; [fuel] counts the iterations the model is
    allowed, and [OutOfFuel] says the loop was still going. *)
Fixpoint poll (instance : value) (fuel : nat) (status : value) : M value :=
  if eq_str status "pending" then
    match fuel with
    | O => fun t => (OutOfFuel, t)
    | S fuel' =>
        _ <- request (Sleep 5) (fun _ => inr VNone) ;;
        status <- request (InstanceUpdate instance)
                    (fun t => instance_update w t instance) ;;
        poll instance fuel' status
    end
  else ret status.

(** The statements of [run] after the loop, source lines 350-358.  The last
    branch only logs: the function falls off its end and returns [None]. *)
Definition started (instance name tags status : value) : M value :=
  if eq_str status "running" then
    _ <- (if truthy name then
            request (InstanceAddTag instance (VStr "Name") name)
              (fun t => instance_add_tag w t instance (VStr "Name") name)
          else ret VNone) ;;
    _ <- (if truthy tags then
            request (InstanceAddTags instance tags)
              (fun t => instance_add_tags w t instance tags)
          else ret VNone) ;;
    ret (VBool true)
  else ret VNone.

(** [run], source lines 316-358. *)
Definition run (fuel : nat)
    (image_id name tags instance_type key_name security_groups user_data
       placement region key keyid profile : value) : M value :=
  conn <- lift (_get_conn w region key keyid profile) ;;
  reservation <- request
    (RunInstances image_id instance_type key_name security_groups user_data placement)
    (fun t => conn_run_instances conn t image_id instance_type key_name
                security_groups user_data placement) ;;
  if negb (truthy reservation) then ret (VBool false)
  else
    instances <- getattr reservation "instances" ;;
    instance <- getitem0 instances ;;
    status <- poll instance fuel (VStr "pending") ;;
    started instance name tags status.

(** ** Instance attributes *)

Definition attribute_list : list string :=
  ["instanceType"; "kernel"; "ramdisk"; "userData"; "disableApiTermination";
   "instanceInitiatedShutdownBehavior"; "rootDeviceName"; "blockDeviceMapping";
   "productCodes"; "sourceDestCheck"; "groupSet"; "ebsOptimized";
   "sriovNetSupport"].

(** [attribute in attribute_list] *)
Definition in_attribute_list (attribute : string) : bool :=
  existsb (String.eqb attribute) attribute_list.

Definition attribute_list_message : string :=
  "Attribute must be one of: ["
    +:+ String.concat ", " (map (fun a => "'" +:+ a +:+ "'") attribute_list)
    +:+ "].".

(** The [if instance_name:] block shared by [get_attribute] and
    [set_attribute], source lines 527-531 and 581-585. *)
Definition resolve_instance_id
    (instance_name instance_id region key keyid profile : value) : M value :=
  if truthy instance_name then
    instances <- find_instances VNone instance_name VNone region key keyid profile false ;;
    n <- py_len instances ;;
    if negb (n =? 1) then
      raise (CommandExecutionError
               "Found more than one EC2 instance matching the criteria.")
    else getitem0 instances
  else ret instance_id.

(** [get_attribute], source lines 490-538. *)
Definition get_attribute (attribute : string)
    (instance_name instance_id region key keyid profile : value) : M value :=
  conn <- lift (_get_conn w region key keyid profile) ;;
  if negb (truthy instance_name || truthy instance_id) then
    raise (SaltInvocationError
      "At least one of the following must be specified: instance_name or instance_id.")
  else if truthy (py_and instance_name instance_id) then
    raise (SaltInvocationError
      "Both instance_name and instance_id can not be specified in the same command.")
  else if negb (in_attribute_list attribute) then
    raise (SaltInvocationError attribute_list_message)
  else
    try_except
      (instance_id <- resolve_instance_id instance_name instance_id
                        region key keyid profile ;;
       instance_attribute <- request (GetInstanceAttribute instance_id attribute)
         (fun t => conn_get_instance_attribute conn t instance_id attribute) ;;
       if negb (truthy instance_attribute) then ret (VBool false)
       else
         x <- getitem instance_attribute attribute ;;
         ret (VDict {[ attribute := x ]}))
      is_BotoServerError
      (fun exc => ret (VBool false)).

(** [set_attribute], source lines 541-592. *)
Definition set_attribute (attribute : string)
    (attribute_value instance_name instance_id region key keyid profile : value)
    : M value :=
  conn <- lift (_get_conn w region key keyid profile) ;;
  if negb (truthy instance_name || truthy instance_id) then
    raise (SaltInvocationError
      "At least one of the following must be specified: instance_name or instance_id.")
  else if truthy (py_and instance_name instance_id) then
    raise (SaltInvocationError
      "Both instance_name and instance_id can not be specified in the same command.")
  else if negb (in_attribute_list attribute) then
    raise (SaltInvocationError attribute_list_message)
  else
    try_except
      (instance_id <- resolve_instance_id instance_name instance_id
                        region key keyid profile ;;
       attribute' <- request (ModifyInstanceAttribute instance_id attribute attribute_value)
         (fun t => conn_modify_instance_attribute conn t instance_id attribute
                     attribute_value) ;;
       if negb (truthy attribute') then ret (VBool false)
       else ret attribute')
      is_BotoServerError
      (fun exc => ret (VBool false)).

(** ** Network interfaces *)

(** [get_network_interface_id], source lines 595-622.  When the request
    raises, the handler fills [r['error']] and leaves [enis] unassigned, so
    the test that follows raises [UnboundLocalError]. *)
Definition get_network_interface_id (name region key keyid profile : value) : M value :=
  conn <- lift (_get_conn w region key keyid profile) ;;
  let r : gmap string value := ∅ in
  let filters : gmap string value := {[ "tag:Name" := name ]} in
  st <- try_except
          (enis <- request (GetAllNetworkInterfaces None (Some filters))
                     (fun t => conn_get_all_network_interfaces conn t None (Some filters)) ;;
           ret (r, Some enis))
          is_EC2ResponseError
          (fun e => ret (<["error" := get_error w e]> r, None)) ;;
  let r := st.1 in
  enis <- local st.2 ;;
  let r :=
    if negb (truthy (VList enis)) then <["error" := message "No ENIs found."]> r
    else if 1 <? Z.of_nat (length enis)
         then <["error" := message "Name specified is tagged on multiple ENIs."]> r
         else r in
  if has_key r "error" then ret (VDict r)
  else
    eni <- getitem0 (VList enis) ;;
    id <- getattr eni "id" ;;
    ret (VDict (<["result" := id]> r)).

(** [_get_network_interface], source lines 651-672. *)
Definition _get_network_interface (conn : Conn) (name network_interface_id : value)
    : M (gmap string value) :=
  let r : gmap string value := ∅ in
  if negb (truthy (py_or name network_interface_id)) then
    raise (SaltInvocationError "Either name or network_interface_id must be provided.")
  else
    st <- try_except
            (enis <- (if truthy network_interface_id then
                        request (GetAllNetworkInterfaces (Some [network_interface_id]) None)
                          (fun t => conn_get_all_network_interfaces conn t
                                      (Some [network_interface_id]) None)
                      else
                        request (GetAllNetworkInterfaces None (Some {[ "tag:Name" := name ]}))
                          (fun t => conn_get_all_network_interfaces conn t
                                      None (Some {[ "tag:Name" := name ]}))) ;;
             ret (r, Some enis))
            is_EC2ResponseError
            (fun e => ret (<["error" := get_error w e]> r, None)) ;;
    let r := st.1 in
    enis <- local st.2 ;;
    let r :=
      if negb (truthy (VList enis)) then <["error" := message "No ENIs found."]> r
      else if 1 <? Z.of_nat (length enis)
           then <["error" := message "Name specified is tagged on multiple ENIs."]> r
           else r in
    if has_key r "error" then ret r
    else
      eni <- getitem0 (VList enis) ;;
      ret (<["result" := eni]> r).

(** [if hasattr(o, attr): r[attr] = getattr(o, attr)] for each [attr] *)
Fixpoint copy_attrs (o : value) (attrs : list string) (r : gmap string value)
    : M (gmap string value) :=
  match attrs with
  | [] => ret r
  | attr :: rest =>
      if hasattr o attr then
        x <- getattr o attr ;; copy_attrs o rest (<[attr := x]> r)
      else copy_attrs o rest r
  end.

(** [_describe_network_interface], source lines 675-700. *)
Definition _describe_network_interface (eni : value) : M (gmap string value) :=
  r <- copy_attrs eni
         ["status"; "description"; "availability_zone"; "requesterId";
          "requester_managed"; "mac_address"; "private_ip_address";
          "vpc_id"; "id"; "source_dest_check"; "owner_id"; "tags";
          "subnet_id"; "associationId"; "publicDnsName"; "owner_id";
          "ipOwnerId"; "publicIp"; "allocationId"] ∅ ;;
  region <- getattr eni "region" ;;
  region_name <- getattr region "name" ;;
  let r := <["region" := region_name]> r in
  groups <- getattr eni "groups" ;;
  groups <- py_iter groups ;;
  groups <- mapM (fun group =>
                    name <- getattr group "name" ;;
                    id <- getattr group "id" ;;
                    ret (VDict (<["id" := id]> {[ "name" := name ]}))) groups ;;
  let r := <["groups" := VList groups]> r in
  addresses <- getattr eni "private_ip_addresses" ;;
  addresses <- py_iter addresses ;;
  addresses <- mapM (fun address =>
                       a <- getattr address "private_ip_address" ;;
                       p <- getattr address "primary" ;;
                       ret (VDict (<["primary" := p]> {[ "private_ip_address" := a ]})))
                    addresses ;;
  let r := <["private_ip_addresses" := VList addresses]> r in
  attachment <- getattr eni "attachment" ;;
  a <- copy_attrs attachment
         ["status"; "attach_time"; "device_index"; "delete_on_termination";
          "instance_id"; "instance_owner_id"; "id"] ∅ ;;
  ret (<["attachment" := VDict a]> r).

(** [get_network_interface], source lines 625-648. *)
Definition get_network_interface
    (name network_interface_id region key keyid profile : value) : M value :=
  conn <- lift (_get_conn w region key keyid profile) ;;
  let r : gmap string value := ∅ in
  result <- _get_network_interface conn name network_interface_id ;;
  if has_key result "error" then
    err <- getitem (VDict result) "error" ;;
    msg <- getitem err "message" ;;
    if eq_str msg "No ENIs found." then ret (VDict (<["result" := VNone]> r))
    else ret (VDict result)
  else
    eni <- getitem (VDict result) "result" ;;
    info <- _describe_network_interface eni ;;
    ret (VDict (<["result" := VDict info]> r)).

(** [create_network_interface], source lines 703-747. *)
Definition create_network_interface
    (name subnet_id private_ip_address description groups
       region key keyid profile : value) : M value :=
  conn <- lift (_get_conn w region key keyid profile) ;;
  let r : gmap string value := ∅ in
  result <- _get_network_interface conn name VNone ;;
  if has_key result "result" then
    ret (VDict (<["error" := message "An ENI with this Name tag already exists."]> r))
  else
    vpc_id <- request (GetSubnetAssociation [subnet_id])
                (fun t => get_subnet_association w t [subnet_id]
                            (region, key, keyid, profile)) ;;
    vpc_id <- dict_get vpc_id "vpc_id" ;;
    if negb (truthy vpc_id) then
      let msg := "subnet_id " +:+ py_str subnet_id +:+ " does not map to a valid vpc id." in
      ret (VDict (<["error" := message msg]> r))
    else
      _groups <- request (ConvertToGroupIds groups vpc_id)
                   (fun t => convert_to_group_ids w t groups vpc_id
                               (region, key, keyid, profile)) ;;
      res <- try_except
               (eni <- request
                         (CreateNetworkInterface subnet_id private_ip_address
                            description _groups)
                         (fun t => conn_create_network_interface conn t subnet_id
                                     private_ip_address description _groups) ;;
                _ <- request (EniAddTag eni (VStr "Name") name)
                       (fun t => eni_add_tag w t eni (VStr "Name") name) ;;
                ret (inr eni))
               is_EC2ResponseError
               (fun e => ret (inl (VDict (<["error" := get_error w e]> r)))) ;;
      match res with
      | inl early => ret early
      | inr eni =>
          info <- _describe_network_interface eni ;;
          ret (VDict (<["result" := VDict info]> r))
      end.

(** The block [info = _describe_network_interface(eni);
    network_interface_id = info['id']] under [except KeyError], shared by
    [delete_network_interface] and [attach_network_interface]: the id, or
    the envelope the handler returns. *)
Definition described_id (eni : value) (r : gmap string value) : M (value + value) :=
  try_except
    (info <- _describe_network_interface eni ;;
     id <- getitem (VDict info) "id" ;;
     ret (inr id))
    is_KeyError
    (fun _ => ret (inl (VDict
       (<["error" := message "ID not found for this network interface."]> r)))).

(** [delete_network_interface], source lines 750-784. *)
Definition delete_network_interface
    (name network_interface_id region key keyid profile : value) : M value :=
  if negb (truthy (py_or name network_interface_id)) then
    raise (SaltInvocationError "Either name or network_interface_id must be provided.")
  else
    conn <- lift (_get_conn w region key keyid profile) ;;
    let r : gmap string value := ∅ in
    result <- _get_network_interface conn name network_interface_id ;;
    if has_key result "error" then ret (VDict result)
    else
      eni <- getitem (VDict result) "result" ;;
      res <- described_id eni r ;;
      match res with
      | inl early => ret early
      | inr network_interface_id =>
          r <- try_except
                 (x <- request (DeleteNetworkInterface network_interface_id)
                         (fun t => conn_delete_network_interface conn t
                                     network_interface_id) ;;
                  ret (<["result" := x]> r))
                 is_EC2ResponseError
                 (fun e => ret (<["error" := get_error w e]> r)) ;;
          ret (VDict r)
      end.

(** [attach_network_interface], source lines 787-827. *)
Definition attach_network_interface
    (name network_interface_id instance_id device_index
       region key keyid profile : value) : M value :=
  if negb (truthy (py_or name network_interface_id)) then
    raise (SaltInvocationError "Either name or network_interface_id must be provided.")
  else if negb (truthy (py_and instance_id device_index)) then
    raise (SaltInvocationError "instance_id and device_index are required parameters.")
  else
    conn <- lift (_get_conn w region key keyid profile) ;;
    let r : gmap string value := ∅ in
    result <- _get_network_interface conn name network_interface_id ;;
    if has_key result "error" then ret (VDict result)
    else
      eni <- getitem (VDict result) "result" ;;
      res <- described_id eni r ;;
      match res with
      | inl early => ret early
      | inr network_interface_id =>
          r <- try_except
                 (x <- request
                         (AttachNetworkInterface network_interface_id instance_id
                            device_index)
                         (fun t => conn_attach_network_interface conn t
                                     network_interface_id instance_id device_index) ;;
                  ret (<["result" := x]> r))
                 is_EC2ResponseError
                 (fun e => ret (<["error" := get_error w e]> r)) ;;
          ret (VDict r)
      end.

(** [info['attachment']['id']] under [except KeyError]: the attachment id,
    or nothing when a key is missing. *)
Definition attachment_id_of (info : gmap string value) : M (option value) :=
  try_except
    (a <- getitem (VDict info) "attachment" ;;
     id <- getitem a "id" ;;
     ret (Some id))
    is_KeyError
    (fun _ => ret None).

(** [detach_network_interface], source lines 830-866. *)
Definition detach_network_interface
    (name network_interface_id attachment_id force
       region key keyid profile : value) : M value :=
  if negb (truthy (py_or (py_or name network_interface_id) attachment_id)) then
    raise (SaltInvocationError
      "Either name or network_interface_id or attachment_id must be provided.")
  else
    conn <- lift (_get_conn w region key keyid profile) ;;
    let r : gmap string value := ∅ in
    res <- (if negb (truthy attachment_id) then
              result <- _get_network_interface conn name network_interface_id ;;
              if has_key result "error" then ret (inl (VDict result))
              else
                eni <- getitem (VDict result) "result" ;;
                info <- _describe_network_interface eni ;;
                a <- attachment_id_of info ;;
                match a with
                | Some id => ret (inr id)
                | None => ret (inl (VDict
                    (<["error" := message "Attachment id not found for this ENI."]> r)))
                end
            else ret (inr attachment_id)) ;;
    match res with
    | inl early => ret early
    | inr attachment_id =>
        r <- try_except
               (x <- request (DetachNetworkInterface attachment_id force)
                       (fun t => conn_detach_network_interface conn t attachment_id force) ;;
                ret (<["result" := x]> r))
               is_EC2ResponseError
               (fun e => ret (<["error" := get_error w e]> r)) ;;
        ret (VDict r)
    end.

(** [modify_network_interface_attribute], source lines 869-937. *)
Definition modify_network_interface_attribute
    (name network_interface_id attr val region key keyid profile : value) : M value :=
  if negb (truthy (py_or name network_interface_id)) then
    raise (SaltInvocationError "Either name or network_interface_id must be provided.")
  else if is_None attr && is_None val then
    raise (SaltInvocationError "attr and value must be provided.")
  else
    let r : gmap string value := ∅ in
    conn <- lift (_get_conn w region key keyid profile) ;;
    result <- _get_network_interface conn name network_interface_id ;;
    if has_key result "error" then ret (VDict result)
    else
      eni <- getitem (VDict result) "result" ;;
      info <- _describe_network_interface eni ;;
      network_interface_id <- getitem (VDict info) "id" ;;
      let _attr :=
        if eq_str attr "groups" then VStr "groupSet"
        else if eq_str attr "source_dest_check" then VStr "sourceDestCheck"
        else if eq_str attr "delete_on_termination" then VStr "deleteOnTermination"
        else attr in
      let _value := val in
      vpc_id <- dict_get (VDict info) "vpc_id" ;;
      res <- (if truthy vpc_id && eq_str _attr "groupSet" then
                _value <- request (ConvertToGroupIds val vpc_id)
                            (fun t => convert_to_group_ids w t val vpc_id
                                        (region, key, keyid, profile)) ;;
                if negb (truthy _value) then
                  ret (inl (VDict (<["error" := message
                    "Security groups do not map to valid security group ids"]> r)))
                else ret (inr _value)
              else ret (inr _value)) ;;
      match res with
      | inl early => ret early
      | inr _value =>
          res <- (if eq_str _attr "deleteOnTermination" then
                    a <- attachment_id_of info ;;
                    match a with
                    | Some id => ret (inr id)
                    | None => ret (inl (VDict (<["error" := message
                        ("No attachment id found for this ENI. The ENI must"
                         +:+ " be attached before delete_on_termination can be"
                         +:+ " modified")]> r)))
                    end
                  else ret (inr VNone)) ;;
          match res with
          | inl early => ret early
          | inr _attachment_id =>
              r <- try_except
                     (x <- request
                             (ModifyNetworkInterfaceAttribute network_interface_id
                                _attr _value _attachment_id)
                             (fun t => conn_modify_network_interface_attribute conn t
                                         network_interface_id _attr _value
                                         _attachment_id) ;;
                      ret (<["result" := x]> r))
                     is_EC2ResponseError
                     (fun e => ret (<["error" := get_error w e]> r)) ;;
              ret (VDict r)
          end
      end.

(** ** The id of an instance *)

(** [" ".join(v)]: the items must be strings. *)
Fixpoint join_strings (l : list value) : M string :=
  match l with
  | [] => ret ""
  | x :: rest =>
      match x with
      | VStr s =>
          tail <- join_strings rest ;;
          ret (match rest with [] => s | _ => s +:+ " " +:+ tail end)
      | _ => raise TypeError
      end
  end.

Definition py_join (v : value) : M string :=
  match v with
  | VList l => join_strings l
  | VStr s => join_strings (map (fun c => VStr (String c "")) (String.list_ascii_of_string s))
  | VDict d => join_strings (map (fun kv => VStr kv.1) (map_to_list d))
  | _ => raise TypeError
  end.

(** [get_id], source lines 266-290.  The joined ids are only logged, but
    joining them can raise. *)
Definition get_id (name tags region key keyid profile : value) : M value :=
  instance_ids <- find_instances VNone name tags region key keyid profile false ;;
  if truthy instance_ids then
    _ <- py_join instance_ids ;;
    n <- py_len instance_ids ;;
    if n =? 1 then getitem0 instance_ids
    else raise (CommandExecutionError
                  "Found more than one instance matching the criteria.")
  else ret VNone.

End Module.

(** ** Vocabulary of the properties *)

(** The request [_get_network_interface] sends for a selector, and the
    world's answer to it: the interfaces the selector matches. *)
Definition eni_lookup (name network_interface_id : value) : call :=
  if truthy network_interface_id
  then GetAllNetworkInterfaces (Some [network_interface_id]) None
  else GetAllNetworkInterfaces None (Some {[ "tag:Name" := name ]}).

Definition eni_matches (conn : Conn) (t : trace) (name network_interface_id : value)
    : exn + list value :=
  if truthy network_interface_id
  then conn_get_all_network_interfaces conn t (Some [network_interface_id]) None
  else conn_get_all_network_interfaces conn t None (Some {[ "tag:Name" := name ]}).

(** A result envelope: a mapping with exactly one of the keys ['result']
    and ['error']. *)
Definition is_envelope (v : value) : bool :=
  match v with
  | VDict d => xorb (has_key d "result") (has_key d "error")
  | _ => false
  end.

(** Whatever a computation returns is an envelope. *)
Definition returns_envelope (r : outcome value * trace) : Prop :=
  match r.1 with
  | Ret v => is_envelope v = true
  | _ => True
  end.

(** The request [find_instances] sends for a selector without tags, and the
    instances the world's answer holds. *)
Definition instance_lookup (instance_id name : value) : call :=
  GetAllInstances (instance_ids_of instance_id) (name_filters name).

Definition instance_matches (conn : Conn) (t : trace) (instance_id name : value)
    : outcome (list value) :=
  match conn_get_all_instances conn t (instance_ids_of instance_id) (name_filters name) with
  | inl e => Raise e
  | inr reservations => (reservation_instances reservations []).1
  end.

(** What a [try] with [except boto.exception.BotoServerError: return False]
    makes of an outcome. *)
Definition caught (o : outcome value) : outcome value :=
  match o with
  | Raise e => if is_BotoServerError e then Ret (VBool false) else Raise e
  | _ => o
  end.

(** The requests of [n] iterations of the polling loop. *)
Fixpoint polls (instance : value) (n : nat) : trace :=
  match n with
  | O => []
  | S n' => Sleep 5 :: InstanceUpdate instance :: polls instance n'
  end.

(** The instance [run] waits for: the first of the reservation. *)
Definition launched (reservation : value) : option value :=
  match reservation with
  | VObj attrs =>
      match attrs !! "instances" with
      | Some (VList (instance :: _)) => Some instance
      | _ => None
      end
  | _ => None
  end.

(** The instance answers 'pending' to each of the first [k] polls that
    follow the trace [t]. *)
Definition pending_for (w : World) (instance : value) (t : trace) (k : nat) : Prop :=
  forall j, (j < k)%nat ->
    instance_update w (t ++ polls instance j ++ [Sleep 5]) instance
    = inr (VStr "pending").

(** No request of the trace creates a network interface. *)
Definition is_create (c : call) : bool :=
  match c with CreateNetworkInterface _ _ _ _ => true | _ => false end.

(** Whatever a computation returns satisfies [P], from any trace. *)
Definition post {A} (P : A -> Prop) (m : M A) : Prop :=
  forall t, match (m t).1 with Ret a => P a | _ => True end.

(** The dictionary is an envelope. *)
Definition envelope_dict (d : gmap string value) : Prop :=
  is_envelope (VDict d) = true.

(** An operation that leaves early does so with an envelope. *)
Definition early_envelope {A} (res : value + A) : Prop :=
  match res with inl v => is_envelope v = true | inr _ => True end.

(** A computation that sends no request. *)
Definition silent {A} (m : M A) : Prop := forall t, m t = ((m []).1, t).

(** The attributes [_describe_network_interface] probes on an interface
    and on its attachment. *)
Definition eni_attributes : list string :=
  ["status"; "description"; "availability_zone"; "requesterId";
   "requester_managed"; "mac_address"; "private_ip_address";
   "vpc_id"; "id"; "source_dest_check"; "owner_id"; "tags";
   "subnet_id"; "associationId"; "publicDnsName"; "owner_id";
   "ipOwnerId"; "publicIp"; "allocationId"].

Definition attachment_attributes : list string :=
  ["status"; "attach_time"; "device_index"; "delete_on_termination";
   "instance_id"; "instance_owner_id"; "id"].

(** The attribute [k] of a value, when it has one. *)
Definition attr_of (v : value) (k : string) : option value :=
  match v with VObj attrs => attrs !! k | _ => None end.

(** [if hasattr(o, attr): r[attr] = getattr(o, attr)] for each [attr], as a
    function. *)
Definition copied (o : value) (l : list string) (r : gmap string value)
    : gmap string value :=
  foldl (fun r a => match attr_of o a with Some x => <[a := x]> r | None => r end) r l.

(** [info] is what [_describe_network_interface] makes of [eni]. *)
Definition described (eni : value) (info : gmap string value) : Prop :=
  (_describe_network_interface eni []).1 = Ret info.

(** The ids of instances that all have one. *)
Definition ids_of (l : list value) : outcome (list value) :=
  (mapM (fun i => getattr i "id") l []).1.

(** ** Example worlds *)

Definition demo_conn (instances enis : exn + list value) : Conn := {|
  conn_get_all_instances := fun _ _ _ => instances;
  conn_run_instances := fun _ _ _ _ _ _ _ =>
    inr (VObj {[ "instances" := VList [VObj {[ "id" := VStr "i-0001" ]}] ]});
  conn_get_instance_attribute := fun _ _ a => inr (VDict {[ a := VStr "value" ]});
  conn_modify_instance_attribute := fun _ _ _ _ => inr (VBool true);
  conn_get_all_network_interfaces := fun _ _ _ => enis;
  conn_create_network_interface := fun _ _ _ _ _ => inr (VObj {[ "id" := VStr "eni-new" ]});
  conn_delete_network_interface := fun _ _ => inr (VBool true);
  conn_attach_network_interface := fun _ _ _ _ => inr (VBool true);
  conn_detach_network_interface := fun _ _ _ => inr (VBool true);
  conn_modify_network_interface_attribute := fun _ _ _ _ _ => inr (VBool true)
|}.

(** A world with one handle for every credential, whose instances answer
    [update] with [status] and [terminate] with [terminated]. *)
Definition demo_world (conn : Conn) (status : value) (terminated : exn + value)
    : World := {|
  _get_conn := fun _ _ _ _ => inr conn;
  get_error := fun _ => message "remote error";
  instance_terminate := fun _ _ => terminated;
  instance_update := fun _ _ => inr status;
  instance_add_tag := fun _ _ _ _ => inr VNone;
  instance_add_tags := fun _ _ _ => inr VNone;
  eni_add_tag := fun _ _ _ _ => inr VNone;
  get_subnet_association := fun _ _ _ => inr (VDict {[ "vpc_id" := VStr "vpc-1" ]});
  convert_to_group_ids := fun _ _ _ _ => inr (VList [VStr "sg-1"])
|}.

Definition instance1 : value := VObj {[ "id" := VStr "i-0001" ]}.
Definition instance2 : value := VObj {[ "id" := VStr "i-0002" ]}.
Definition reservation (instances : list value) : value :=
  VObj {[ "instances" := VList instances ]}.
(** An unattached interface as the SDK describes it. *)
Definition eni (id : string) : value :=
  VObj (<["id" := VStr id]>
       (<["vpc_id" := VStr "vpc-1"]>
       (<["region" := VObj {[ "name" := VStr "us-east-1" ]}]>
       (<["groups" := VList [VObj (<["name" := VStr "default"]> {[ "id" := VStr "sg-1" ]})]]>
       (<["private_ip_addresses" := VList []]>
       {[ "attachment" := VNone ]}))))).
Definition eni1 : value := eni "eni-1".
Definition eni2 : value := eni "eni-2".

(** One instance and one interface match every selector. *)
Definition conn_one : Conn := demo_conn (inr [reservation [instance1]]) (inr [eni1]).
Definition world_one : World := demo_world conn_one (VStr "pending") (inr VNone).

(** Two instances and two interfaces match every selector. *)
Definition conn_two : Conn :=
  demo_conn (inr [reservation [instance1]; reservation [instance2]]) (inr [eni1; eni2]).
Definition world_two : World := demo_world conn_two (VStr "pending") (inr VNone).

(** An interface attached to an instance. *)
Definition eni_attached : value :=
  VObj (<["id" := VStr "eni-3"]>
       (<["region" := VObj {[ "name" := VStr "us-east-1" ]}]>
       (<["groups" := VList []]>
       (<["private_ip_addresses" := VList []]>
       {[ "attachment" := VObj (<["id" := VStr "eni-attach-1"]>
                                {[ "instance_id" := VStr "i-0001" ]}) ]})))).
Definition conn_attached : Conn := demo_conn (inr []) (inr [eni_attached]).
Definition world_attached : World :=
  demo_world conn_attached (VStr "running") (inr VNone).

(** Nothing matches. *)
Definition conn_none : Conn := demo_conn (inr []) (inr []).
Definition world_none : World := demo_world conn_none (VStr "pending") (inr VNone).

(** Every lookup of instances fails in transport. *)
Definition conn_down : Conn :=
  demo_conn (inl (BotoServerError true "RequestLimitExceeded")) (inr []).
Definition world_down : World := demo_world conn_down (VStr "pending") (inr VNone).

(** A world whose handle depends on the region it is asked for: instances
    exist in [us-west-2] only. *)
Definition world_regions : World := {|
  _get_conn := fun region _ _ _ =>
    if eq_str region "us-west-2" then inr conn_one else inr conn_none;
  get_error := fun _ => message "remote error";
  instance_terminate := fun _ _ => inr VNone;
  instance_update := fun _ _ => inr (VStr "running");
  instance_add_tag := fun _ _ _ _ => inr VNone;
  instance_add_tags := fun _ _ _ => inr VNone;
  eni_add_tag := fun _ _ _ _ => inr VNone;
  get_subnet_association := fun _ _ _ => inr (VDict ∅);
  convert_to_group_ids := fun _ _ _ _ => inr (VList [])
|}.

(** * Properties *)

(** ** The monad and the dictionary tests *)

Lemma has_key_empty k : has_key ∅ k = false.
Proof. unfold has_key. rewrite lookup_empty. apply bool_decide_eq_false. by intros []. Qed.

Lemma has_key_insert_eq (d : gmap string value) k v : has_key (<[k := v]> d) k = true.
Proof. unfold has_key. rewrite lookup_insert_eq. apply bool_decide_eq_true. by eexists. Qed.

Lemma has_key_insert_ne (d : gmap string value) k k' v :
  k ≠ k' -> has_key (<[k := v]> d) k' = has_key d k'.
Proof. intros H. unfold has_key. by rewrite lookup_insert_ne. Qed.

Lemma has_key_true (d : gmap string value) k :
  has_key d k = true <-> is_Some (d !! k).
Proof. unfold has_key. apply bool_decide_eq_true. Qed.

Lemma is_envelope_error v : is_envelope (VDict (<["error" := v]> ∅)) = true.
Proof.
  simpl. rewrite has_key_insert_eq, has_key_insert_ne, has_key_empty; done.
Qed.

Lemma is_envelope_result v : is_envelope (VDict (<["result" := v]> ∅)) = true.
Proof.
  simpl. rewrite has_key_insert_eq, has_key_insert_ne, has_key_empty; done.
Qed.

(** ** The uniqueness resolver *)

Lemma length_two_lt {A} (x y : A) (l : list A) :
  (1 <? Z.of_nat (length (x :: y :: l))) = true.
Proof. apply Z.ltb_lt. simpl length. lia. Qed.

(** [_get_network_interface] in closed form, for a selector that names
    something. *)
Lemma _get_network_interface_eq w conn name nid t :
  truthy (py_or name nid) = true ->
  _get_network_interface w conn name nid t =
    (match eni_matches conn t name nid with
     | inr [] => Ret (<["error" := message "No ENIs found."]> ∅)
     | inr [eni] => Ret (<["result" := eni]> ∅)
     | inr (_ :: _ :: _) =>
         Ret (<["error" := message "Name specified is tagged on multiple ENIs."]> ∅)
     | inl e => if is_EC2ResponseError e then Raise UnboundLocalError else Raise e
     end, t ++ [eni_lookup name nid]).
Proof.
  intros Hsel. unfold _get_network_interface, eni_matches, eni_lookup.
  rewrite Hsel. cbn [negb]. unfold bind, try_except, request.
  destruct (truthy nid).
  - destruct (conn_get_all_network_interfaces conn t (Some [nid]) None)
      as [e | [| eni [| eni' enis]]];
      cbn -[Z.ltb Z.of_nat length]; rewrite ?length_two_lt; simpl.
    + destruct (is_EC2ResponseError e); reflexivity.
    + rewrite has_key_insert_eq. reflexivity.
    + rewrite has_key_empty. reflexivity.
    + rewrite has_key_insert_eq. reflexivity.
  - destruct (conn_get_all_network_interfaces conn t None
                (Some {[ "tag:Name" := name ]}))
      as [e | [| eni [| eni' enis]]];
      cbn -[Z.ltb Z.of_nat length]; rewrite ?length_two_lt; simpl.
    + destruct (is_EC2ResponseError e); reflexivity.
    + rewrite has_key_insert_eq. reflexivity.
    + rewrite has_key_empty. reflexivity.
    + rewrite has_key_insert_eq. reflexivity.
Qed.

(** C1. For a selector that names something ([name] or
    [network_interface_id]), [_get_network_interface] returns
    [{'result': eni}] when exactly one interface matches, the envelope
    [{'error': {'message': 'No ENIs found.'}}] when none matches, and the
    envelope with message 'Name specified is tagged on multiple ENIs.' when
    more than one matches; a returned mapping has the key ['result'] only
    when exactly one interface matched. *)
Theorem get_network_interface_resolves_unique w conn name nid t :
  truthy (py_or name nid) = true ->
  let r := _get_network_interface w conn name nid t in
  (forall eni, eni_matches conn t name nid = inr [eni] ->
     r.1 = Ret {[ "result" := eni ]})
  /\ (eni_matches conn t name nid = inr [] ->
      r.1 = Ret {[ "error" := message "No ENIs found." ]})
  /\ (forall enis, eni_matches conn t name nid = inr enis ->
      (2 <= length enis)%nat ->
      r.1 = Ret {[ "error" := message "Name specified is tagged on multiple ENIs." ]})
  /\ (forall d, r.1 = Ret d -> is_Some (d !! "result") ->
      exists eni, eni_matches conn t name nid = inr [eni]).
Proof.
  intros Hsel r. subst r. rewrite (_get_network_interface_eq _ _ _ _ _ Hsel).
  cbn [fst]. rewrite !insert_empty. repeat split.
  - intros eni ->. reflexivity.
  - intros ->. reflexivity.
  - intros enis -> Hlen. destruct enis as [| x [| y l]]; simpl in Hlen; try lia.
    reflexivity.
  - intros d Hret Hres.
    destruct (eni_matches conn t name nid) as [e | [| eni [| eni' enis]]].
    + destruct (is_EC2ResponseError e); discriminate.
    + injection Hret as <-. rewrite lookup_singleton_ne in Hres by done.
      by destruct Hres.
    + by exists eni.
    + injection Hret as <-. rewrite lookup_singleton_ne in Hres by done.
      by destruct Hres.
Qed.

Lemma get_network_interface_resolves_unique_witness :
  (_get_network_interface world_one conn_one (VStr "my_eni") VNone []).1
    = Ret {[ "result" := eni1 ]}
  /\ (_get_network_interface world_none conn_none (VStr "my_eni") VNone []).1
    = Ret {[ "error" := message "No ENIs found." ]}.
Proof.
  split.
  - apply (get_network_interface_resolves_unique
             world_one conn_one (VStr "my_eni") VNone []); reflexivity.
  - apply (get_network_interface_resolves_unique
             world_none conn_none (VStr "my_eni") VNone []); reflexivity.
Defined.

(** ** The finder *)

Lemma silent_ret {A} (a : A) : silent (ret a).
Proof. by intros t. Qed.

Lemma silent_raise {A} e : silent (@raise A e).
Proof. by intros t. Qed.

Lemma silent_bind {A B} (m : M A) (k : A -> M B) :
  silent m -> (forall a, silent (k a)) -> silent (bind m k).
Proof.
  intros Hm Hk t. unfold bind. rewrite (Hm t), (Hm []).
  destruct (m []).1 as [a | e |]; simpl; try reflexivity.
  apply Hk.
Qed.

Lemma silent_getattr v a : silent (getattr v a).
Proof. destruct v; try apply silent_raise. simpl. destruct (attrs !! a); by intros t. Qed.

Lemma silent_py_iter v : silent (py_iter v).
Proof. destruct v; by intros t. Qed.

Lemma silent_mapM {A B} (f : A -> M B) l :
  (forall x, silent (f x)) -> silent (mapM f l).
Proof.
  intros Hf. induction l as [| x l IH]; simpl.
  - apply silent_ret.
  - apply silent_bind; [apply Hf |]. intros y.
    apply silent_bind; [apply IH |]. intros ys. apply silent_ret.
Qed.

Lemma silent_reservation_instances rs : silent (reservation_instances rs).
Proof.
  apply silent_bind; [| intros; apply silent_ret].
  apply silent_mapM. intros r.
  apply silent_bind; [apply silent_getattr | intros; apply silent_py_iter].
Qed.

Lemma silent_ids l : silent (mapM (fun i => getattr i "id") l).
Proof. apply silent_mapM. intros x. apply silent_getattr. Qed.

Lemma mapM_length {A B} (f : A -> M B) l : forall ys t t',
  mapM f l t = (Ret ys, t') -> length ys = length l.
Proof.
  induction l as [| x l IH]; intros ys t t'; simpl.
  - by intros [= <- _].
  - unfold bind. destruct (f x t) as [[y | e |] t1]; try discriminate.
    destruct (mapM f l t1) as [[zs | e |] t2] eqn:E; try discriminate.
    intros [= <- _]. simpl. f_equal. by apply (IH _ _ _ E).
Qed.

(** [find_instances] in closed form, once the handle and the filters are
    built. *)
Lemma find_instances_eq w conn iid name tags region key keyid profile objs t filters :
  _get_conn w region key keyid profile = inr conn ->
  tag_filters tags (name_filters name) t = (Ret filters, t) ->
  find_instances w iid name tags region key keyid profile objs t =
    (match conn_get_all_instances conn t (instance_ids_of iid) filters with
     | inl e => caught (Raise e)
     | inr rs =>
         match (reservation_instances rs []).1 with
         | Ret [] => Ret (VBool false)
         | Ret l =>
             if objs then Ret (VList l)
             else match (mapM (fun i => getattr i "id") l []).1 with
                  | Ret ids => Ret (VList ids)
                  | o => caught (match o with Raise e => Raise e | _ => OutOfFuel end)
                  end
         | Raise e => caught (Raise e)
         | OutOfFuel => OutOfFuel
         end
     end, t ++ [GetAllInstances (instance_ids_of iid) filters]).
Proof.
  intros Hconn Hf. unfold find_instances. rewrite Hconn. simpl.
  unfold bind at 1. unfold ret at 1. unfold try_except, bind at 1.
  rewrite Hf. unfold bind at 1, request.
  destruct (conn_get_all_instances conn t (instance_ids_of iid) filters) as [e | rs].
  { simpl. by destruct (is_BotoServerError e). }
  unfold bind at 1. rewrite silent_reservation_instances.
  destruct (reservation_instances rs []) as [[l | e |] t0]; cbn [fst].
  - destruct l as [| i l]; [reflexivity |].
    cbn [truthy]. destruct objs; [reflexivity |].
    unfold bind. rewrite silent_ids.
    destruct (mapM _ (i :: l) []) as [[ids | e |] t1]; cbn [fst]; try reflexivity.
    simpl. by destruct (is_BotoServerError e).
  - simpl. by destruct (is_BotoServerError e).
  - reflexivity.
Qed.

Lemma tag_filters_None f t : tag_filters VNone f t = (Ret f, t).
Proof. reflexivity. Qed.

(** [find_instances] for a selector without tags, in terms of the instances
    that match. *)
Lemma find_instances_objs w conn iid name region key keyid profile t :
  _get_conn w region key keyid profile = inr conn ->
  find_instances w iid name VNone region key keyid profile true t =
    (match instance_matches conn t iid name with
     | Ret [] => Ret (VBool false)
     | Ret l => Ret (VList l)
     | Raise e => caught (Raise e)
     | OutOfFuel => OutOfFuel
     end, t ++ [instance_lookup iid name]).
Proof.
  intros Hconn.
  rewrite (find_instances_eq _ _ _ _ _ _ _ _ _ _ _ _ Hconn (tag_filters_None _ _)).
  unfold instance_matches, instance_lookup.
  destruct (conn_get_all_instances _ _ _ _) as [e | rs]; [reflexivity |].
  by destruct (reservation_instances rs []).1 as [[| i l] | e |].
Qed.

(** ** Termination of instances *)

(** [terminate] in closed form. *)
Lemma terminate_eq w conn iid name region key keyid profile t :
  _get_conn w region key keyid profile = inr conn ->
  terminate w iid name region key keyid profile t =
    match instance_matches conn t iid name with
    | Ret [] => (Ret (VBool false), t ++ [instance_lookup iid name])
    | Ret [i] =>
        (match instance_terminate w (t ++ [instance_lookup iid name]) i with
         | inl e => Raise e
         | inr _ => Ret (VBool true)
         end, t ++ [instance_lookup iid name; InstanceTerminate i])
    | Ret (_ :: _ :: _) => (Ret (VBool false), t ++ [instance_lookup iid name])
    | Raise e => (caught (Raise e), t ++ [instance_lookup iid name])
    | OutOfFuel => (OutOfFuel, t ++ [instance_lookup iid name])
    end.
Proof.
  intros Hconn. unfold terminate, bind at 1.
  rewrite (find_instances_objs _ _ _ _ _ _ _ _ _ Hconn).
  destruct (instance_matches conn t iid name) as [[| i [| j l]] | e |].
  - reflexivity.
  - simpl. unfold bind, request. simpl.
    destruct (instance_terminate w _ i) as [e | y];
      simpl; rewrite <- app_assoc; reflexivity.
  - assert (Hn : (Z.of_nat (length (i :: j :: l)) =? 1) = false)
      by (apply Z.eqb_neq; simpl length; lia).
    cbn [in_False_None]. unfold bind, py_len, ret. rewrite Hn. reflexivity.
  - simpl caught. destruct (is_BotoServerError e); reflexivity.
  - reflexivity.
Qed.

(** C2. When the selector matches exactly one instance, [terminate] sends
    exactly one terminate request, for that instance, after its lookup, and
    returns [True] (the provider accepting the request); when the selector
    matches two or more instances it returns [False] and sends nothing but
    the lookup. *)
Theorem terminate_exactly_one w conn iid name region key keyid profile t :
  _get_conn w region key keyid profile = inr conn ->
  let r := terminate w iid name region key keyid profile t in
  (forall i, instance_matches conn t iid name = Ret [i] ->
     r.2 = t ++ [instance_lookup iid name; InstanceTerminate i]
     /\ (forall x, instance_terminate w (t ++ [instance_lookup iid name]) i = inr x ->
         r.1 = Ret (VBool true)))
  /\ (forall l, instance_matches conn t iid name = Ret l -> (2 <= length l)%nat ->
      r = (Ret (VBool false), t ++ [instance_lookup iid name])).
Proof.
  intros Hconn r. subst r. rewrite (terminate_eq _ _ _ _ _ _ _ _ _ Hconn). split.
  - intros i ->. split; [reflexivity |]. by intros x ->.
  - intros l -> Hlen. destruct l as [| i [| j l]]; simpl in Hlen; try lia.
    reflexivity.
Qed.

Lemma terminate_exactly_one_witness :
  terminate world_one (VStr "i-0001") VNone VNone VNone VNone VNone []
  = (Ret (VBool true),
     [instance_lookup (VStr "i-0001") VNone; InstanceTerminate instance1])
  /\ terminate world_two VNone (VStr "web") VNone VNone VNone VNone []
  = (Ret (VBool false), [instance_lookup VNone (VStr "web")]).
Proof.
  split.
  - pose proof (terminate_exactly_one world_one conn_one (VStr "i-0001") VNone
                  VNone VNone VNone VNone [] eq_refl) as [H _].
    destruct (H instance1 eq_refl) as [H2 H1].
    specialize (H1 VNone eq_refl).
    rewrite (surjective_pairing (terminate _ _ _ _ _ _ _ _)).
    rewrite H1, H2. reflexivity.
  - pose proof (terminate_exactly_one world_two conn_two VNone (VStr "web")
                  VNone VNone VNone VNone [] eq_refl) as [_ H].
    apply (H [instance1; instance2] eq_refl). simpl. lia.
Defined.

(** The provider refusing the terminate request is not handled: the
    exception leaves [terminate], after the one request. *)
Lemma terminate_refused w conn iid name region key keyid profile t i e :
  _get_conn w region key keyid profile = inr conn ->
  instance_matches conn t iid name = Ret [i] ->
  instance_terminate w (t ++ [instance_lookup iid name]) i = inl e ->
  terminate w iid name region key keyid profile t
  = (Raise e, t ++ [instance_lookup iid name; InstanceTerminate i]).
Proof.
  intros Hconn Hm He. rewrite (terminate_eq _ _ _ _ _ _ _ _ _ Hconn), Hm, He.
  reflexivity.
Qed.

(** ** Empty result and transport error *)

(** C4, as the code has it. [find_instances] returns the same value,
    [False], when the query matches no instance and when the request fails
    with a [BotoServerError]; only a match returns something else, the
    non-empty list of what matched. *)
Theorem find_instances_empty_or_error
    w conn iid name tags region key keyid profile objs t filters :
  _get_conn w region key keyid profile = inr conn ->
  tag_filters tags (name_filters name) t = (Ret filters, t) ->
  let answer := conn_get_all_instances conn t (instance_ids_of iid) filters in
  let r := find_instances w iid name tags region key keyid profile objs t in
  (forall rs, answer = inr rs -> (reservation_instances rs []).1 = Ret [] ->
     r.1 = Ret (VBool false))
  /\ (forall e, answer = inl e -> is_BotoServerError e = true ->
      r.1 = Ret (VBool false))
  /\ (forall rs l, answer = inr rs -> (reservation_instances rs []).1 = Ret l ->
      l <> [] ->
      (objs = true -> r.1 = Ret (VList l))
      /\ (forall ids, objs = false ->
           (mapM (fun i => getattr i "id") l []).1 = Ret ids ->
           r.1 = Ret (VList ids) /\ length ids = length l)).
Proof.
  intros Hconn Hf answer r. subst answer r.
  rewrite (find_instances_eq _ _ _ _ _ _ _ _ _ _ _ _ Hconn Hf). cbn [fst].
  split; [| split].
  - intros rs -> ->. reflexivity.
  - intros e -> He. simpl. by rewrite He.
  - intros rs l -> -> Hl. split.
    + intros ->. by destruct l.
    + intros ids -> Hids. split; [destruct l; [done | by rewrite Hids] |].
      destruct (mapM (fun i => getattr i "id") l []) as [o t'] eqn:E.
      simpl in Hids. subst o. by apply (mapM_length _ _ _ _ _ E).
Qed.

Lemma find_instances_empty_or_error_witness :
  (find_instances world_none VNone (VStr "web") VNone VNone VNone VNone VNone false []).1
  = Ret (VBool false)
  /\ (find_instances world_down VNone (VStr "web") VNone VNone VNone VNone VNone false []).1
  = Ret (VBool false).
Proof.
  split.
  - destruct (find_instances_empty_or_error world_none conn_none VNone (VStr "web")
                VNone VNone VNone VNone VNone false [] _ eq_refl eq_refl) as [H _].
    apply (H [] eq_refl eq_refl).
  - destruct (find_instances_empty_or_error world_down conn_down VNone (VStr "web")
                VNone VNone VNone VNone VNone false [] _ eq_refl eq_refl) as [_ [H _]].
    apply (H (BotoServerError true "RequestLimitExceeded") eq_refl eq_refl).
Defined.

(** C4, refuted as stated: a query that matches no instance and a query
    whose request fails in transport get one and the same value from
    [find_instances]. *)
Lemma find_instances_empty_is_error :
  conn_get_all_instances conn_none [] None {[ "tag:Name" := VStr "web" ]} = inr []
  /\ conn_get_all_instances conn_down [] None {[ "tag:Name" := VStr "web" ]}
     = inl (BotoServerError true "RequestLimitExceeded")
  /\ (find_instances world_none VNone (VStr "web") VNone VNone VNone VNone VNone false []).1
     = (find_instances world_down VNone (VStr "web") VNone VNone VNone VNone VNone false []).1.
Proof. repeat split. Qed.

(** ** Existence of an instance *)

(** C8. The result of [exists] does not depend on [region], [key], [keyid]
    or [profile]: it is what the lookup delegated to [find_instances] gives
    with the default credentials, turned into a boolean. *)
Theorem exists_ignores_credentials
    w iid name tags region key keyid profile region' key' keyid' profile' t :
  exists_ w iid name tags region key keyid profile t
  = exists_ w iid name tags region' key' keyid' profile' t
  /\ exists_ w iid name tags region key keyid profile t
     = match find_instances w iid name tags VNone VNone VNone VNone false t with
       | (Ret instances, t') => (Ret (VBool (truthy instances)), t')
       | (Raise e, t') => (Raise e, t')
       | (OutOfFuel, t') => (OutOfFuel, t')
       end.
Proof.
  split; [reflexivity |]. unfold exists_, bind.
  destruct (find_instances w iid name tags VNone VNone VNone VNone false t)
    as [[instances | e |] t']; try reflexivity.
  by destruct (truthy instances).
Qed.

(** The finder itself does use the credentials: in a world whose instances
    live in one region, asking [find_instances] for that region finds them,
    while [exists] asked for the same region answers [False]. *)
Lemma exists_drops_region :
  (find_instances world_regions VNone (VStr "web") VNone
     (VStr "us-west-2") VNone VNone VNone false []).1 = Ret (VList [VStr "i-0001"])
  /\ (exists_ world_regions VNone (VStr "web") VNone
        (VStr "us-west-2") VNone VNone VNone []).1 = Ret (VBool false).
Proof. split; reflexivity. Qed.

(** ** Instance attributes *)

Lemma in_attribute_list_true a : in_attribute_list a = true <-> a ∈ attribute_list.
Proof.
  unfold in_attribute_list. rewrite existsb_exists, list_elem_of_In. split.
  - intros (x & Hx & Heq). apply String.eqb_eq in Heq. by subst.
  - intros H. exists a. split; [done | apply String.eqb_refl].
Qed.

Lemma in_attribute_list_false a : a ∉ attribute_list -> in_attribute_list a = false.
Proof.
  intros H. destruct (in_attribute_list a) eqn:E; [| done].
  by apply in_attribute_list_true in E.
Qed.

Lemma attribute_list_length : length attribute_list = 13%nat.
Proof. reflexivity. Qed.

(** C6. For an attribute outside the 13-entry allow-list, [get_attribute]
    and [set_attribute] send no request, and (the handle being built) raise
    [SaltInvocationError]. *)
Theorem attribute_outside_allow_list_rejected
    w attribute attribute_value instance_name instance_id region key keyid profile t :
  attribute ∉ attribute_list ->
  let g := get_attribute w attribute instance_name instance_id
             region key keyid profile t in
  let s := set_attribute w attribute attribute_value instance_name instance_id
             region key keyid profile t in
  g.2 = t /\ s.2 = t
  /\ (forall conn, _get_conn w region key keyid profile = inr conn ->
      exists msg, g.1 = Raise (SaltInvocationError msg)
                  /\ s.1 = Raise (SaltInvocationError msg)).
Proof.
  intros Hnot g s. subst g s. apply in_attribute_list_false in Hnot.
  unfold get_attribute, set_attribute, bind, lift.
  destruct (_get_conn w region key keyid profile) as [e | c]; simpl.
  { repeat split. intros conn [=]. }
  rewrite Hnot.
  destruct (truthy instance_name || truthy instance_id); simpl;
    [destruct (truthy (py_and instance_name instance_id)); simpl |];
    (repeat split; intros conn _; eexists; split; reflexivity).
Qed.

Lemma attribute_outside_allow_list_rejected_witness :
  exists msg,
    (get_attribute world_one "instanceTypo" (VStr "web") VNone
       VNone VNone VNone VNone []).1 = Raise (SaltInvocationError msg)
    /\ (set_attribute world_one "instanceTypo" (VStr "m1.large") (VStr "web") VNone
          VNone VNone VNone VNone []).1 = Raise (SaltInvocationError msg).
Proof.
  assert (H : "instanceTypo" ∉ attribute_list).
  { intros H. apply in_attribute_list_true in H. discriminate H. }
  destruct (attribute_outside_allow_list_rejected world_one "instanceTypo"
              (VStr "m1.large") (VStr "web") VNone VNone VNone VNone VNone [] H)
    as (_ & _ & Hraise).
  exact (Hraise conn_one eq_refl).
Defined.

(** [find_instances] returning ids, when nothing matches a name. *)
Lemma find_instances_no_match w conn name region key keyid profile t :
  _get_conn w region key keyid profile = inr conn ->
  instance_matches conn t VNone name = Ret [] ->
  find_instances w VNone name VNone region key keyid profile false t
  = (Ret (VBool false), t ++ [instance_lookup VNone name]).
Proof.
  intros Hconn Hm.
  rewrite (find_instances_eq _ _ _ _ _ _ _ _ _ _ _ _ Hconn (tag_filters_None _ _)).
  unfold instance_matches in Hm. unfold instance_lookup.
  destruct (conn_get_all_instances _ _ _ _) as [e | rs]; [discriminate |].
  by rewrite Hm.
Qed.

(** C9. [get_attribute] and [set_attribute], given an [instance_name] that
    matches no instance, apply [len] to the [False] that [find_instances]
    returned: a [TypeError] leaves the function, after the lookup, instead
    of a failure value. *)
Theorem attribute_of_unmatched_name_raises
    w conn attribute attribute_value instance_name instance_id
    region key keyid profile t :
  _get_conn w region key keyid profile = inr conn ->
  attribute ∈ attribute_list ->
  truthy instance_name = true ->
  truthy instance_id = false ->
  instance_matches conn t VNone instance_name = Ret [] ->
  get_attribute w attribute instance_name instance_id region key keyid profile t
  = (Raise TypeError, t ++ [instance_lookup VNone instance_name])
  /\ set_attribute w attribute attribute_value instance_name instance_id
       region key keyid profile t
     = (Raise TypeError, t ++ [instance_lookup VNone instance_name]).
Proof.
  intros Hconn Hin Hname Hid Hm. apply in_attribute_list_true in Hin.
  unfold get_attribute, set_attribute, lift, py_and, resolve_instance_id.
  rewrite Hconn, Hname, Hid, Hin. cbn [orb negb].
  unfold try_except, bind, ret.
  rewrite (find_instances_no_match _ _ _ _ _ _ _ _ Hconn Hm).
  split; reflexivity.
Qed.

Lemma attribute_of_unmatched_name_raises_witness :
  get_attribute world_none "sourceDestCheck" (VStr "web") VNone VNone VNone VNone VNone []
  = (Raise TypeError, [instance_lookup VNone (VStr "web")])
  /\ set_attribute world_none "sourceDestCheck" (VBool false) (VStr "web") VNone
       VNone VNone VNone VNone []
     = (Raise TypeError, [instance_lookup VNone (VStr "web")]).
Proof.
  apply (attribute_of_unmatched_name_raises world_none conn_none "sourceDestCheck"
           (VBool false) (VStr "web") VNone VNone VNone VNone VNone []);
    try reflexivity.
  apply in_attribute_list_true. reflexivity.
Defined.

(** The same happens when the lookup fails in transport: the finder turns
    the error into [False] too. *)
Lemma attribute_of_name_raises_when_down :
  get_attribute world_down "sourceDestCheck" (VStr "web") VNone VNone VNone VNone VNone []
  = (Raise TypeError, [instance_lookup VNone (VStr "web")]).
Proof. reflexivity. Qed.

(** ** Attaching a network interface *)

(** C10. With [device_index] equal to 0, [attach_network_interface] raises
    [SaltInvocationError] and sends no request, whatever the other
    arguments; with a selector supplied the message is the one about
    [instance_id] and [device_index], also when an [instance_id] is
    given. *)
Theorem attach_device_index_zero_refused
    w name nid instance_id region key keyid profile t :
  let r := attach_network_interface w name nid instance_id (VInt 0)
             region key keyid profile t in
  (exists msg, r = (Raise (SaltInvocationError msg), t))
  /\ (truthy (py_or name nid) = true ->
      r = (Raise (SaltInvocationError
                    "instance_id and device_index are required parameters."), t)).
Proof.
  intros r. subst r. unfold attach_network_interface.
  assert (Hz : truthy (py_and instance_id (VInt 0)) = false).
  { unfold py_and. by destruct (truthy instance_id) eqn:E. }
  rewrite Hz. destruct (truthy (py_or name nid)); simpl.
  - split; [by eexists | done].
  - split; [by eexists | done].
Qed.

Lemma attach_device_index_zero_refused_witness :
  attach_network_interface world_one (VStr "my_eni") VNone (VStr "i-0001") (VInt 0)
    VNone VNone VNone VNone []
  = (Raise (SaltInvocationError
              "instance_id and device_index are required parameters."), []).
Proof.
  apply (attach_device_index_zero_refused world_one (VStr "my_eni") VNone
           (VStr "i-0001") VNone VNone VNone VNone []).
  reflexivity.
Defined.

(** A device index other than 0 does reach the provider. *)
Lemma attach_device_index_one :
  attach_network_interface world_one (VStr "my_eni") VNone (VStr "i-0001") (VInt 1)
    VNone VNone VNone VNone []
  = (Ret (VDict {[ "result" := VBool true ]}),
     [eni_lookup (VStr "my_eni") VNone;
      AttachNetworkInterface (VStr "eni-1") (VStr "i-0001") (VInt 1)]).
Proof. vm_compute. reflexivity. Qed.

(** ** Creating a network interface *)

(** C7. When [name] is the Name tag of exactly one existing interface,
    [create_network_interface] returns the envelope
    [{'error': {'message': 'An ENI with this Name tag already exists.'}}]
    after its lookup, and sends no create request. *)
Theorem create_network_interface_name_taken
    w conn name subnet_id private_ip_address description groups
    region key keyid profile t eni :
  _get_conn w region key keyid profile = inr conn ->
  truthy name = true ->
  conn_get_all_network_interfaces conn t None (Some {[ "tag:Name" := name ]})
    = inr [eni] ->
  let r := create_network_interface w name subnet_id private_ip_address description
             groups region key keyid profile t in
  r = (Ret (VDict {[ "error" := message "An ENI with this Name tag already exists." ]}),
       t ++ [GetAllNetworkInterfaces None (Some {[ "tag:Name" := name ]})])
  /\ existsb is_create r.2 = existsb is_create t.
Proof.
  intros Hconn Hname Hone r.
  assert (Hr : r = (Ret (VDict {[ "error" :=
                      message "An ENI with this Name tag already exists." ]}),
                    t ++ [GetAllNetworkInterfaces None (Some {[ "tag:Name" := name ]})])).
  { subst r. unfold create_network_interface, lift. rewrite Hconn.
    unfold bind, ret.
    rewrite _get_network_interface_eq by (unfold py_or; by rewrite Hname).
    unfold eni_matches, eni_lookup. cbn [truthy]. rewrite Hone.
    rewrite has_key_insert_eq, insert_empty. reflexivity. }
  split; [exact Hr |]. rewrite Hr. cbn [snd].
  rewrite existsb_app. simpl. apply orb_false_r.
Qed.

Lemma create_network_interface_name_taken_witness :
  create_network_interface world_one (VStr "my_eni") (VStr "subnet-12345") VNone
    (VStr "my_eni") (VList [VStr "my_group"]) VNone VNone VNone VNone []
  = (Ret (VDict {[ "error" := message "An ENI with this Name tag already exists." ]}),
     [GetAllNetworkInterfaces None (Some {[ "tag:Name" := VStr "my_eni" ]})]).
Proof.
  apply (create_network_interface_name_taken world_one conn_one (VStr "my_eni")
           (VStr "subnet-12345") VNone (VStr "my_eni") (VList [VStr "my_group"])
           VNone VNone VNone VNone [] eni1); reflexivity.
Defined.

(** A free name does reach the provider's create request. *)
Lemma create_network_interface_free_name :
  existsb is_create
    (create_network_interface world_none (VStr "my_eni") (VStr "subnet-12345") VNone
       (VStr "my_eni") (VList [VStr "my_group"]) VNone VNone VNone VNone []).2 = true.
Proof. vm_compute. reflexivity. Qed.

(** ** Result envelopes *)

Section Post.

Context {A B : Type}.

Lemma post_ret (P : A -> Prop) a : P a -> post P (ret a).
Proof. intros H t. exact H. Qed.

Lemma post_raise (P : A -> Prop) e : post P (raise e).
Proof. by intros t. Qed.

Lemma post_lift (P : A -> Prop) (r : exn + A) :
  (forall a, r = inr a -> P a) -> post P (lift r).
Proof. intros H. destruct r; [apply post_raise | apply post_ret; auto]. Qed.

Lemma post_request (P : A -> Prop) c answer :
  (forall a, P a) -> post P (request c answer).
Proof. intros H t. unfold request. destruct (answer t); simpl; auto. Qed.

Lemma post_bind (Q : A -> Prop) (P : B -> Prop) (m : M A) (k : A -> M B) :
  post Q m -> (forall a, Q a -> post P (k a)) -> post P (bind m k).
Proof.
  intros Hm Hk t. unfold bind. specialize (Hm t).
  destruct (m t) as [[a | e |] t']; simpl in *; try done.
  apply (Hk a Hm t').
Qed.

Lemma post_bind_any (P : B -> Prop) (m : M A) (k : A -> M B) :
  (forall a, post P (k a)) -> post P (bind m k).
Proof.
  intros Hk. apply (post_bind (fun _ => True)); [| auto].
  intros t. by destruct (m t).1.
Qed.

Lemma post_try_except (P : A -> Prop) body catches handler :
  post P body -> (forall e, post P (handler e)) -> post P (try_except body catches handler).
Proof.
  intros Hb Hh t. unfold try_except. specialize (Hb t).
  destruct (body t) as [[a | e |] t']; simpl in *; try done.
  destruct (catches e); [apply Hh | done].
Qed.

End Post.

Lemma post_returns_envelope (m : M value) :
  post (fun v => is_envelope v = true) m -> forall t, returns_envelope (m t).
Proof. intros H t. exact (H t). Qed.

Lemma envelope_error v : envelope_dict (<["error" := v]> ∅).
Proof. apply is_envelope_error. Qed.

Lemma envelope_result v : envelope_dict (<["result" := v]> ∅).
Proof. apply is_envelope_result. Qed.

Create HintDb envelope.

#[local] Hint Resolve envelope_error envelope_result is_envelope_error
  is_envelope_result : envelope.

(** The resolver returns an envelope. *)
Lemma _get_network_interface_post w conn name nid :
  post envelope_dict (_get_network_interface w conn name nid).
Proof.
  intros t. destruct (truthy (py_or name nid)) eqn:Hsel.
  - rewrite (_get_network_interface_eq _ _ _ _ _ Hsel). cbn [fst].
    destruct (eni_matches conn t name nid) as [e | [| eni [| eni' enis]]];
      auto with envelope.
    by destruct (is_EC2ResponseError e).
  - unfold _get_network_interface. by rewrite Hsel.
Qed.

(** The last statements of the mutating operations: the request's result
    under ['result'], or the provider's error under ['error']. *)
Lemma post_outcome w c (answer : trace -> exn + value) :
  post (fun v => is_envelope v = true)
    (r <- try_except (x <- request c answer ;; ret (<["result" := x]> ∅))
            is_EC2ResponseError
            (fun e => ret (<["error" := get_error w e]> ∅)) ;;
     ret (VDict r)).
Proof.
  apply (post_bind envelope_dict); [| intros r Hr; by apply post_ret].
  apply post_try_except.
  - apply post_bind_any. intros x. apply post_ret. auto with envelope.
  - intros e. apply post_ret. auto with envelope.
Qed.

Lemma described_id_post eni :
  post early_envelope (described_id eni ∅).
Proof.
  apply post_try_except.
  - do 2 (apply post_bind_any; intros ?). by apply post_ret.
  - intros e. apply post_ret. simpl. auto with envelope.
Qed.

Lemma get_network_interface_id_post w name region key keyid profile :
  post (fun v => is_envelope v = true)
    (get_network_interface_id w name region key keyid profile).
Proof.
  unfold get_network_interface_id.
  apply post_bind_any. intros conn.
  apply (post_bind (fun st => is_Some st.2 -> st.1 = ∅)).
  { apply post_try_except.
    - apply post_bind_any. intros enis. by apply post_ret.
    - intros e. apply post_ret. by intros []. }
  intros [r [enis |]] Hst; cbn [fst snd local]; [| intros t; done].
  assert (r = ∅) as -> by (apply Hst; by eexists).
  apply (post_bind (fun l => l = enis)); [by apply post_ret | intros ? ->].
  destruct (negb (truthy (VList enis))).
  { rewrite has_key_insert_eq. apply post_ret. auto with envelope. }
  destruct (1 <? Z.of_nat (length enis)).
  { rewrite has_key_insert_eq. apply post_ret. auto with envelope. }
  rewrite has_key_empty.
  do 2 (apply post_bind_any; intros ?). apply post_ret. auto with envelope.
Qed.

Lemma get_network_interface_post w name nid region key keyid profile :
  post (fun v => is_envelope v = true)
    (get_network_interface w name nid region key keyid profile).
Proof.
  unfold get_network_interface.
  apply post_bind_any. intros conn.
  apply (post_bind envelope_dict); [apply _get_network_interface_post |].
  intros result Hres. destruct (has_key result "error").
  - do 2 (apply post_bind_any; intros ?).
    destruct (eq_str _ _); apply post_ret; auto with envelope.
  - do 2 (apply post_bind_any; intros ?). apply post_ret. auto with envelope.
Qed.

Lemma create_network_interface_post
    w name subnet_id private_ip_address description groups region key keyid profile :
  post (fun v => is_envelope v = true)
    (create_network_interface w name subnet_id private_ip_address description groups
       region key keyid profile).
Proof.
  unfold create_network_interface.
  do 2 (apply post_bind_any; intros ?).
  destruct (has_key _ "result"); [apply post_ret; auto with envelope |].
  do 2 (apply post_bind_any; intros ?).
  destruct (negb (truthy _)); [apply post_ret; auto with envelope |].
  apply post_bind_any. intros _groups.
  apply (post_bind early_envelope).
  { apply post_try_except.
    - do 2 (apply post_bind_any; intros ?). by apply post_ret.
    - intros e. apply post_ret. simpl. auto with envelope. }
  intros [early | eni] Hres; [by apply post_ret |].
  apply post_bind_any. intros info. apply post_ret. auto with envelope.
Qed.

Lemma delete_network_interface_post w name nid region key keyid profile :
  post (fun v => is_envelope v = true)
    (delete_network_interface w name nid region key keyid profile).
Proof.
  unfold delete_network_interface.
  destruct (negb (truthy _)); [apply post_raise |].
  apply post_bind_any. intros conn.
  apply (post_bind envelope_dict); [apply _get_network_interface_post |].
  intros result Hres. destruct (has_key result "error"); [by apply post_ret |].
  apply post_bind_any. intros eni.
  apply (post_bind early_envelope); [apply described_id_post |].
  intros [early | id] Hearly; [by apply post_ret |].
  apply post_outcome.
Qed.

Lemma attach_network_interface_post
    w name nid instance_id device_index region key keyid profile :
  post (fun v => is_envelope v = true)
    (attach_network_interface w name nid instance_id device_index
       region key keyid profile).
Proof.
  unfold attach_network_interface.
  destruct (negb (truthy _)); [apply post_raise |].
  destruct (negb (truthy _)); [apply post_raise |].
  apply post_bind_any. intros conn.
  apply (post_bind envelope_dict); [apply _get_network_interface_post |].
  intros result Hres. destruct (has_key result "error"); [by apply post_ret |].
  apply post_bind_any. intros eni.
  apply (post_bind early_envelope); [apply described_id_post |].
  intros [early | id] Hearly; [by apply post_ret |].
  apply post_outcome.
Qed.

Lemma detach_network_interface_post
    w name nid attachment_id force region key keyid profile :
  post (fun v => is_envelope v = true)
    (detach_network_interface w name nid attachment_id force region key keyid profile).
Proof.
  unfold detach_network_interface.
  destruct (negb (truthy (py_or _ _))); [apply post_raise |].
  apply post_bind_any. intros conn.
  apply (post_bind early_envelope).
  { destruct (negb (truthy attachment_id)); [| by apply post_ret].
    apply (post_bind envelope_dict); [apply _get_network_interface_post |].
    intros result Hres. destruct (has_key result "error"); [by apply post_ret |].
    do 3 (apply post_bind_any; intros ?).
    destruct a1; apply post_ret; simpl; auto with envelope. }
  intros [early | id] Hearly; [by apply post_ret |].
  apply post_outcome.
Qed.

Lemma modify_network_interface_attribute_post
    w name nid attr val region key keyid profile :
  post (fun v => is_envelope v = true)
    (modify_network_interface_attribute w name nid attr val region key keyid profile).
Proof.
  unfold modify_network_interface_attribute.
  destruct (negb (truthy _)); [apply post_raise |].
  destruct (is_None attr && is_None val); [apply post_raise |].
  apply post_bind_any. intros conn.
  apply (post_bind envelope_dict); [apply _get_network_interface_post |].
  intros result Hres. destruct (has_key result "error"); [by apply post_ret |].
  do 4 (apply post_bind_any; intros ?).
  apply (post_bind early_envelope).
  { destruct (_ && _); [| by apply post_ret].
    apply post_bind_any. intros _value.
    destruct (negb (truthy _value)); apply post_ret; simpl; auto with envelope. }
  intros [early | _value] Hearly; [by apply post_ret |].
  apply (post_bind early_envelope).
  { destruct (eq_str _ "deleteOnTermination"); [| by apply post_ret].
    apply post_bind_any. intros [id |]; apply post_ret; simpl; auto with envelope. }
  intros [early | _attachment_id] Hearly'; [by apply post_ret |].
  apply post_outcome.
Qed.

(** C5. Whatever an operation of the network-interface family returns is a
    mapping with exactly one of the keys ['result'] and ['error']. *)
Theorem network_interface_family_returns_envelope
    w name nid region key keyid profile t :
  returns_envelope (get_network_interface_id w name region key keyid profile t)
  /\ returns_envelope (get_network_interface w name nid region key keyid profile t)
  /\ (forall subnet_id private_ip_address description groups,
        returns_envelope
          (create_network_interface w name subnet_id private_ip_address description
             groups region key keyid profile t))
  /\ returns_envelope (delete_network_interface w name nid region key keyid profile t)
  /\ (forall instance_id device_index,
        returns_envelope
          (attach_network_interface w name nid instance_id device_index
             region key keyid profile t))
  /\ (forall attachment_id force,
        returns_envelope
          (detach_network_interface w name nid attachment_id force
             region key keyid profile t))
  /\ (forall attr val,
        returns_envelope
          (modify_network_interface_attribute w name nid attr val
             region key keyid profile t)).
Proof.
  repeat split; intros; apply post_returns_envelope.
  - apply get_network_interface_id_post.
  - apply get_network_interface_post.
  - apply create_network_interface_post.
  - apply delete_network_interface_post.
  - apply attach_network_interface_post.
  - apply detach_network_interface_post.
  - apply modify_network_interface_attribute_post.
Qed.

(** Both outcomes occur. *)
Lemma delete_network_interface_examples :
  (delete_network_interface world_one (VStr "my_eni") VNone VNone VNone VNone VNone []).1
  = Ret (VDict {[ "result" := VBool true ]})
  /\ (delete_network_interface world_two (VStr "my_eni") VNone VNone VNone VNone VNone []).1
  = Ret (VDict {[ "error" := message "Name specified is tagged on multiple ENIs." ]}).
Proof. split; vm_compute; reflexivity. Qed.

(** ** The polling loop of [run] *)

Lemma polls_snoc i k : polls i (S k) = polls i k ++ [Sleep 5; InstanceUpdate i].
Proof. induction k as [| k IH]; [reflexivity |]. simpl in *. by rewrite IH. Qed.

(** As long as the answers are 'pending' the loop goes on. *)
Lemma poll_steps w i k : forall fuel t,
  (k <= fuel)%nat -> pending_for w i t k ->
  poll w i fuel (VStr "pending") t
  = poll w i (fuel - k) (VStr "pending") (t ++ polls i k).
Proof.
  induction k as [| k IH]; intros fuel t Hle Hp.
  - simpl. by rewrite Nat.sub_0_r, app_nil_r.
  - rewrite IH by (try lia; intros j Hj; apply Hp; lia).
    replace (fuel - k)%nat with (S (fuel - S k)) by lia.
    cbn [poll eq_str String.eqb Ascii.eqb Bool.eqb]. unfold bind, request.
    rewrite <- (app_assoc t), (Hp k) by lia.
    rewrite polls_snoc. by rewrite <- !app_assoc.
Qed.

(** [run] in closed form up to the loop. *)
Lemma run_eq w conn fuel image_id name tags instance_type key_name security_groups
    user_data placement region key keyid profile t reservation instance :
  _get_conn w region key keyid profile = inr conn ->
  conn_run_instances conn t image_id instance_type key_name security_groups
    user_data placement = inr reservation ->
  launched reservation = Some instance ->
  run w fuel image_id name tags instance_type key_name security_groups user_data
    placement region key keyid profile t
  = bind (poll w instance fuel (VStr "pending")) (started w instance name tags)
      (t ++ [RunInstances image_id instance_type key_name security_groups
               user_data placement]).
Proof.
  intros Hconn Hrun Hl. unfold run, lift. rewrite Hconn.
  unfold bind at 1. unfold ret at 1. unfold bind at 1. unfold request. rewrite Hrun.
  destruct reservation as [| | | | | | attrs]; try discriminate.
  cbn [truthy negb getattr]. unfold launched in Hl.
  destruct (attrs !! "instances") as [[| | | | [| x l] | |] |]; try discriminate.
  injection Hl as ->. reflexivity.
Qed.

(** While the instance stays 'pending', [run] is still polling after any
    number of iterations. *)
Lemma run_pending w conn fuel image_id name tags instance_type key_name security_groups
    user_data placement region key keyid profile t reservation instance :
  _get_conn w region key keyid profile = inr conn ->
  conn_run_instances conn t image_id instance_type key_name security_groups
    user_data placement = inr reservation ->
  launched reservation = Some instance ->
  let t1 := t ++ [RunInstances image_id instance_type key_name security_groups
                    user_data placement] in
  pending_for w instance t1 fuel ->
  run w fuel image_id name tags instance_type key_name security_groups user_data
    placement region key keyid profile t
  = (OutOfFuel, t1 ++ polls instance fuel).
Proof.
  intros Hconn Hrun Hl t1 Hp. rewrite (run_eq _ _ _ _ _ _ _ _ _ _ _ _ _ _ _ _ _ _
                                         Hconn Hrun Hl).
  fold t1. unfold bind. rewrite (poll_steps _ _ fuel fuel t1) by (lia || done).
  by rewrite Nat.sub_diag.
Qed.

(** Once an answer differs from 'pending', [run] leaves the loop. *)
Lemma run_leaves_pending w conn fuel image_id name tags instance_type key_name
    security_groups user_data placement region key keyid profile t reservation
    instance k s :
  _get_conn w region key keyid profile = inr conn ->
  conn_run_instances conn t image_id instance_type key_name security_groups
    user_data placement = inr reservation ->
  launched reservation = Some instance ->
  let t1 := t ++ [RunInstances image_id instance_type key_name security_groups
                    user_data placement] in
  pending_for w instance t1 k ->
  instance_update w (t1 ++ polls instance k ++ [Sleep 5]) instance = inr s ->
  eq_str s "pending" = false ->
  (k < fuel)%nat ->
  run w fuel image_id name tags instance_type key_name security_groups user_data
    placement region key keyid profile t
  = started w instance name tags s (t1 ++ polls instance (S k)).
Proof.
  intros Hconn Hrun Hl t1 Hp Hs Hne Hk.
  rewrite (run_eq _ _ _ _ _ _ _ _ _ _ _ _ _ _ _ _ _ _ Hconn Hrun Hl).
  fold t1. unfold bind at 1. rewrite (poll_steps _ _ k fuel t1) by (lia || done).
  replace (fuel - k)%nat with (S (fuel - S k)) by lia.
  cbn [poll eq_str String.eqb Ascii.eqb Bool.eqb]. unfold bind, request.
  rewrite <- (app_assoc t1), Hs.
  destruct (fuel - S k)%nat; cbn [poll]; rewrite Hne;
    rewrite polls_snoc; by rewrite <- !app_assoc.
Qed.

(** C3, as the code has it. The polling loop of [run] has no bound and no
    startup-timeout error: while every answer is 'pending' the loop is
    still polling after any number of iterations, and [run] does not
    return; the loop ends with the first answer that differs from
    'pending', after which [run] tags the instance and returns [True] when
    the answer is 'running', and returns [None] otherwise. *)
Theorem run_polls_until_not_pending
    w conn image_id name tags instance_type key_name security_groups
    user_data placement region key keyid profile t reservation instance :
  _get_conn w region key keyid profile = inr conn ->
  conn_run_instances conn t image_id instance_type key_name security_groups
    user_data placement = inr reservation ->
  launched reservation = Some instance ->
  let t1 := t ++ [RunInstances image_id instance_type key_name security_groups
                    user_data placement] in
  let run_with fuel :=
    run w fuel image_id name tags instance_type key_name security_groups user_data
      placement region key keyid profile t in
  ((forall k, pending_for w instance t1 k) ->
   forall fuel, run_with fuel = (OutOfFuel, t1 ++ polls instance fuel))
  /\ (forall k s fuel,
        pending_for w instance t1 k ->
        instance_update w (t1 ++ polls instance k ++ [Sleep 5]) instance = inr s ->
        eq_str s "pending" = false ->
        (k < fuel)%nat ->
        run_with fuel = started w instance name tags s (t1 ++ polls instance (S k))
        /\ (eq_str s "running" = false ->
            run_with fuel = (Ret VNone, t1 ++ polls instance (S k)))
        /\ (eq_str s "running" = true -> truthy name = false -> truthy tags = false ->
            run_with fuel = (Ret (VBool true), t1 ++ polls instance (S k)))).
Proof.
  intros Hconn Hrun Hl t1 run_with. subst run_with. split.
  - intros Hp fuel. by apply (run_pending _ conn _ _ _ _ _ _ _ _ _ _ _ _ _ _ reservation).
  - intros k s fuel Hp Hs Hne Hk.
    rewrite (run_leaves_pending _ conn _ _ _ _ _ _ _ _ _ _ _ _ _ _ reservation instance k s)
      by done.
    split; [reflexivity |]. split.
    + intros Hnr. unfold started. by rewrite Hnr.
    + intros Hr Hn Ht. unfold started. by rewrite Hr, Hn, Ht.
Qed.

Lemma run_polls_until_not_pending_witness :
  run world_one 3 (VStr "ami-x") VNone VNone (VStr "m1.small") VNone VNone VNone VNone
    VNone VNone VNone VNone []
  = (OutOfFuel,
     [RunInstances (VStr "ami-x") (VStr "m1.small") VNone VNone VNone VNone]
       ++ polls instance1 3).
Proof.
  destruct (run_polls_until_not_pending world_one conn_one (VStr "ami-x") VNone VNone
              (VStr "m1.small") VNone VNone VNone VNone VNone VNone VNone VNone []
              _ instance1 eq_refl eq_refl eq_refl) as [H _].
  apply H. intros k j _. reflexivity.
Defined.

(** C3, refuted as stated: for an instance that answers 'pending' to every
    poll, [run] has neither returned nor raised after any number of
    iterations; its trace holds one sleep and one poll for each of them. *)
Lemma run_pending_forever :
  instance_update world_one = (fun _ _ => inr (VStr "pending"))
  /\ forall fuel,
      run world_one fuel (VStr "ami-x") VNone VNone (VStr "m1.small") VNone VNone VNone
        VNone VNone VNone VNone VNone []
      = (OutOfFuel,
         [RunInstances (VStr "ami-x") (VStr "m1.small") VNone VNone VNone VNone]
           ++ polls instance1 fuel).
Proof.
  split; [reflexivity |]. intros fuel.
  apply (run_pending world_one conn_one fuel (VStr "ami-x") VNone VNone (VStr "m1.small")
           VNone VNone VNone VNone VNone VNone VNone VNone []
           _ instance1 eq_refl eq_refl eq_refl).
  intros j _. reflexivity.
Qed.

(** An instance that comes up is tagged and reported. *)
Lemma run_started :
  run world_regions 1 (VStr "ami-x") (VStr "web1") VNone (VStr "m1.small") VNone VNone
    VNone VNone VNone VNone VNone VNone []
  = (Ret (VBool true),
     [RunInstances (VStr "ami-x") (VStr "m1.small") VNone VNone VNone VNone;
      Sleep 5; InstanceUpdate instance1;
      InstanceAddTag instance1 (VStr "Name") (VStr "web1")]).
Proof. vm_compute. reflexivity. Qed.

(** * Further properties *)

(** ** The id of an instance *)

Lemma join_strings_strs ids t :
  exists s, join_strings (map VStr ids) t = (Ret s, t).
Proof.
  induction ids as [| id ids [s IH]]; simpl; [by eexists |].
  unfold bind. rewrite IH. by eexists.
Qed.

Lemma ids_of_length l ids : ids_of l = Ret ids -> length ids = length l.
Proof.
  unfold ids_of. destruct (mapM _ l []) as [o t'] eqn:E. simpl. intros ->.
  by apply (mapM_length _ _ _ _ _ E).
Qed.

(** X1. [get_id] returns [None] when nothing matches or the lookup fails
    with a [BotoServerError], the id when exactly one instance matches, and
    raises [CommandExecutionError] when several match; in each case it has
    sent the one lookup. *)
Theorem get_id_resolves w conn name tags region key keyid profile t filters :
  _get_conn w region key keyid profile = inr conn ->
  tag_filters tags (name_filters name) t = (Ret filters, t) ->
  let answer := conn_get_all_instances conn t None filters in
  let r := get_id w name tags region key keyid profile t in
  let t' := t ++ [GetAllInstances None filters] in
  (forall rs, answer = inr rs -> (reservation_instances rs []).1 = Ret [] ->
     r = (Ret VNone, t'))
  /\ (forall e, answer = inl e -> is_BotoServerError e = true -> r = (Ret VNone, t'))
  /\ (forall rs i id, answer = inr rs -> (reservation_instances rs []).1 = Ret [i] ->
      ids_of [i] = Ret [VStr id] -> r = (Ret (VStr id), t'))
  /\ (forall rs l ids, answer = inr rs -> (reservation_instances rs []).1 = Ret l ->
      (2 <= length l)%nat -> ids_of l = Ret (map VStr ids) ->
      r = (Raise (CommandExecutionError
                    "Found more than one instance matching the criteria."), t')).
Proof.
  intros Hconn Hf answer r t'. subst answer r t'. unfold get_id, bind.
  rewrite (find_instances_eq _ _ _ _ _ _ _ _ _ _ _ _ Hconn Hf).
  change (instance_ids_of VNone) with (@None (list value)).
  split; [| split; [| split]].
  - intros rs -> ->. reflexivity.
  - intros e -> He. simpl. by rewrite He.
  - intros rs i id -> -> Hid. unfold ids_of in Hid. rewrite Hid. reflexivity.
  - intros rs l ids -> -> Hlen Hids.
    pose proof (ids_of_length _ _ Hids) as Hl. rewrite length_map in Hl.
    unfold ids_of in Hids. destruct l as [| i l]; [simpl in Hlen; lia |].
    rewrite Hids.
    destruct ids as [| a [| b ids]]; simpl in Hl, Hlen; try lia.
    cbn [truthy map py_join].
    destruct (join_strings_strs (a :: b :: ids)
                (t ++ [GetAllInstances None filters])) as [s Hs].
    cbn [map] in Hs. rewrite Hs. cbn [py_len].
    assert (Hn : (Z.of_nat (length (VStr a :: VStr b :: map VStr ids)) =? 1) = false)
      by (apply Z.eqb_neq; simpl length; lia).
    unfold ret. rewrite Hn. reflexivity.
Qed.

Lemma get_id_resolves_witness :
  get_id world_one (VStr "web") VNone VNone VNone VNone VNone []
  = (Ret (VStr "i-0001"), [GetAllInstances None {[ "tag:Name" := VStr "web" ]}])
  /\ get_id world_two (VStr "web") VNone VNone VNone VNone VNone []
  = (Raise (CommandExecutionError
              "Found more than one instance matching the criteria."),
     [GetAllInstances None {[ "tag:Name" := VStr "web" ]}]).
Proof.
  split.
  - destruct (get_id_resolves world_one conn_one (VStr "web") VNone VNone VNone VNone
                VNone [] _ eq_refl eq_refl) as (_ & _ & H & _).
    apply (H _ instance1 "i-0001" eq_refl eq_refl eq_refl).
  - destruct (get_id_resolves world_two conn_two (VStr "web") VNone VNone VNone VNone
                VNone [] _ eq_refl eq_refl) as (_ & _ & _ & H).
    apply (H _ [instance1; instance2] ["i-0001"; "i-0002"] eq_refl eq_refl);
      [simpl; lia | reflexivity].
Defined.

(** ** What the finder returns and sends *)

Lemma post_mapM_length {A B} (f : A -> M B) l :
  post (fun ys => length ys = length l) (mapM f l).
Proof.
  intros t. destruct (mapM f l t) as [[ys | e |] t'] eqn:E; simpl; try done.
  by apply (mapM_length _ _ _ _ _ E).
Qed.

(** X2. Whatever [find_instances] returns is [False] or a non-empty list:
    it never returns an empty list, so its callers' truth tests and
    [len(...) == 1] tests see no third case. *)
Theorem find_instances_false_or_nonempty
    w iid name tags region key keyid profile objs t :
  match (find_instances w iid name tags region key keyid profile objs t).1 with
  | Ret v => v = VBool false \/ exists l, v = VList l /\ l <> []
  | _ => True
  end.
Proof.
  revert t.
  change (post (fun v => v = VBool false \/ exists l, v = VList l /\ l <> [])
            (find_instances w iid name tags region key keyid profile objs)).
  unfold find_instances. apply post_bind_any. intros conn.
  apply post_try_except; [| intros e; apply post_ret; by left].
  do 3 (apply post_bind_any; intros ?).
  destruct a1 as [| i l]; [apply post_ret; by left |]. cbn [truthy].
  destruct objs.
  - apply post_ret. right. by eexists.
  - apply (post_bind (fun ids => length ids = length (i :: l)));
      [apply post_mapM_length |].
    intros ids Hlen. apply post_ret. right. exists ids. split; [done |].
    by destruct ids.
Qed.

Lemma silent_snd {A} (m : M A) t : silent m -> (m t).2 = t.
Proof. intros H. by rewrite (H t). Qed.

Lemma bind_silent_l {A B} (m : M A) (k : A -> M B) t :
  silent m ->
  (bind m k t).2 = match (m []).1 with Ret a => (k a t).2 | _ => t end.
Proof. intros H. unfold bind. rewrite (H t). by destruct (m []).1. Qed.

Lemma bind_silent_r {A B} (m : M A) (k : A -> M B) t :
  (forall a, silent (k a)) -> (bind m k t).2 = (m t).2.
Proof.
  intros H. unfold bind. destruct (m t) as [[a | e |] t']; try done.
  apply silent_snd, H.
Qed.

Lemma silent_tag_filters tags f : silent (tag_filters tags f).
Proof.
  unfold tag_filters. destruct (truthy tags); [| apply silent_ret].
  apply silent_bind; [| intros; apply silent_ret].
  destruct tags; by intros t.
Qed.

(** X3. [find_instances] only reads: it sends nothing, or the one request
    that lists instances. *)
Theorem find_instances_sends_one_lookup
    w iid name tags region key keyid profile objs t :
  let t' := (find_instances w iid name tags region key keyid profile objs t).2 in
  t' = t \/ exists filters, t' = t ++ [GetAllInstances (instance_ids_of iid) filters].
Proof.
  intros t'.
  assert (E : t' = (find_instances w iid name tags region key keyid profile objs t).2)
    by reflexivity.
  clearbody t'. unfold find_instances, lift in E.
  destruct (_get_conn w region key keyid profile) as [e | conn]; [by left |].
  unfold bind at 1 in E. unfold ret at 1 in E.
  match type of E with
  | context [try_except ?b _ _ t] =>
      assert (Hb : (b t).2 = t
                   \/ exists filters,
                        (b t).2 = t ++ [GetAllInstances (instance_ids_of iid) filters])
  end.
  { rewrite bind_silent_l by apply silent_tag_filters.
    destruct (tag_filters tags (name_filters name) []).1 as [filters | e |];
      [| by left | by left].
    right. exists filters. rewrite bind_silent_r.
    - unfold request. by destruct (conn_get_all_instances _ _ _ _).
    - intros rs. apply silent_bind; [apply silent_reservation_instances |].
      intros [| i l]; cbn [truthy]; [apply silent_ret |].
      destruct objs; [apply silent_ret |].
      apply silent_bind; [apply silent_ids | intros; apply silent_ret]. }
  unfold try_except in E.
  match type of Hb with
  | (?b t).2 = _ \/ _ => destruct (b t) as [[v | e |] t0]
  end; cbn [fst snd] in *; [| destruct (is_BotoServerError e) |];
    cbn in E; by subst t'.
Qed.

(** ** Termination, once more *)

(** X4. [terminate] returns [False] and sends only its lookup when nothing
    matches or the lookup fails with a [BotoServerError]; and a terminate
    request is in its trace only for an instance that was the single
    match. *)
Theorem terminate_only_single_match w conn iid name region key keyid profile t :
  _get_conn w region key keyid profile = inr conn ->
  let r := terminate w iid name region key keyid profile t in
  (instance_matches conn t iid name = Ret [] ->
     r = (Ret (VBool false), t ++ [instance_lookup iid name]))
  /\ (forall e, instance_matches conn t iid name = Raise e ->
      is_BotoServerError e = true ->
      r = (Ret (VBool false), t ++ [instance_lookup iid name]))
  /\ (forall i, InstanceTerminate i ∈ r.2 ->
      InstanceTerminate i ∈ t \/ instance_matches conn t iid name = Ret [i]).
Proof.
  intros Hconn r. subst r. rewrite (terminate_eq _ _ _ _ _ _ _ _ _ Hconn).
  split; [| split].
  - by intros ->.
  - intros e -> He. simpl. by rewrite He.
  - intros i. unfold instance_lookup.
    destruct (instance_matches conn t iid name) as [[| j [| j' l]] | e |];
      cbn [snd]; rewrite elem_of_app;
      (intros [Hin | Hin]; [by left |]).
    + apply list_elem_of_singleton in Hin. discriminate.
    + apply elem_of_cons in Hin as [Hin | Hin]; [discriminate |].
      apply list_elem_of_singleton in Hin. injection Hin as ->. by right.
    + apply list_elem_of_singleton in Hin. discriminate.
    + apply list_elem_of_singleton in Hin. discriminate.
    + apply list_elem_of_singleton in Hin. discriminate.
Qed.

Lemma terminate_only_single_match_witness :
  terminate world_none VNone (VStr "web") VNone VNone VNone VNone []
  = (Ret (VBool false), [instance_lookup VNone (VStr "web")]).
Proof.
  apply (terminate_only_single_match world_none conn_none VNone (VStr "web")
           VNone VNone VNone VNone [] eq_refl).
  reflexivity.
Defined.

(** ** Instance attributes, by id and by name *)

(** X5. [get_attribute] and [set_attribute] raise [SaltInvocationError]
    without sending a request when neither or both of [instance_name] and
    [instance_id] are given. *)
Theorem attribute_selector_validated
    w conn attribute attribute_value instance_name instance_id
    region key keyid profile t :
  _get_conn w region key keyid profile = inr conn ->
  let g := get_attribute w attribute instance_name instance_id
             region key keyid profile t in
  let s := set_attribute w attribute attribute_value instance_name instance_id
             region key keyid profile t in
  (truthy instance_name = false -> truthy instance_id = false ->
     let e := SaltInvocationError
       "At least one of the following must be specified: instance_name or instance_id." in
     g = (Raise e, t) /\ s = (Raise e, t))
  /\ (truthy instance_name = true -> truthy instance_id = true ->
      let e := SaltInvocationError
        "Both instance_name and instance_id can not be specified in the same command." in
      g = (Raise e, t) /\ s = (Raise e, t)).
Proof.
  intros Hconn g s. subst g s. unfold get_attribute, set_attribute, lift, py_and.
  rewrite Hconn. unfold bind, ret.
  split; intros Hn Hi; rewrite Hn, Hi; split; reflexivity.
Qed.

Lemma attribute_selector_validated_witness :
  get_attribute world_one "kernel" VNone VNone VNone VNone VNone VNone []
  = (Raise (SaltInvocationError
      "At least one of the following must be specified: instance_name or instance_id."),
     [])
  /\ set_attribute world_one "kernel" (VStr "aki-1") (VStr "web") (VStr "i-0001")
       VNone VNone VNone VNone []
     = (Raise (SaltInvocationError
         "Both instance_name and instance_id can not be specified in the same command."),
        []).
Proof.
  destruct (attribute_selector_validated world_one conn_one "kernel" (VStr "aki-1")
              VNone VNone VNone VNone VNone VNone [] eq_refl) as [H1 _].
  destruct (attribute_selector_validated world_one conn_one "kernel" (VStr "aki-1")
              (VStr "web") (VStr "i-0001") VNone VNone VNone VNone [] eq_refl)
    as [_ H2].
  split.
  - apply (H1 eq_refl eq_refl).
  - apply (H2 eq_refl eq_refl).
Defined.

Lemma truthy_dict_lookup (d : gmap string value) k x :
  d !! k = Some x -> truthy (VDict d) = true.
Proof.
  intros H. simpl. apply negb_true_iff, bool_decide_eq_false.
  intros ->. by rewrite lookup_empty in H.
Qed.

(** X6. With an [instance_id] and an allowed attribute, [get_attribute]
    sends one request; it returns [{attribute: value}] when the answer holds
    the attribute, and [False] when the answer is empty or the request fails
    with a [BotoServerError]. *)
Theorem get_attribute_by_id
    w conn attribute instance_name instance_id region key keyid profile t :
  _get_conn w region key keyid profile = inr conn ->
  attribute ∈ attribute_list ->
  truthy instance_name = false ->
  truthy instance_id = true ->
  let answer := conn_get_instance_attribute conn t instance_id attribute in
  let r := get_attribute w attribute instance_name instance_id
             region key keyid profile t in
  let t' := t ++ [GetInstanceAttribute instance_id attribute] in
  (forall d x, answer = inr (VDict d) -> d !! attribute = Some x ->
     r = (Ret (VDict {[ attribute := x ]}), t'))
  /\ (forall v, answer = inr v -> truthy v = false -> r = (Ret (VBool false), t'))
  /\ (forall e, answer = inl e -> is_BotoServerError e = true ->
      r = (Ret (VBool false), t')).
Proof.
  intros Hconn Hin Hn Hi answer r t'. subst answer r t'.
  apply in_attribute_list_true in Hin.
  unfold get_attribute, lift, py_and, resolve_instance_id.
  rewrite Hconn, Hn, Hi, Hin. cbn [orb negb].
  unfold try_except, bind, ret, request. cbn beta iota. rewrite Hn. cbn beta iota.
  split; [| split].
  - intros d x -> Hx. rewrite (truthy_dict_lookup _ _ _ Hx). simpl. by rewrite Hx.
  - intros v -> Hv. by rewrite Hv.
  - intros e -> He. by rewrite He.
Qed.

Lemma get_attribute_by_id_witness :
  get_attribute world_one "sourceDestCheck" VNone (VStr "i-0001") VNone VNone VNone VNone []
  = (Ret (VDict {[ "sourceDestCheck" := VStr "value" ]}),
     [GetInstanceAttribute (VStr "i-0001") "sourceDestCheck"]).
Proof.
  assert (Hin : "sourceDestCheck" ∈ attribute_list)
    by (apply in_attribute_list_true; reflexivity).
  destruct (get_attribute_by_id world_one conn_one "sourceDestCheck" VNone
              (VStr "i-0001") VNone VNone VNone VNone [] eq_refl Hin eq_refl eq_refl)
    as [H _].
  apply (H _ (VStr "value") eq_refl). reflexivity.
Defined.

(** X7. With an [instance_id] and an allowed attribute, [set_attribute]
    sends one request; it returns the provider's answer when that is true,
    and [False] when the answer is false or the request fails with a
    [BotoServerError]. *)
Theorem set_attribute_by_id
    w conn attribute attribute_value instance_name instance_id
    region key keyid profile t :
  _get_conn w region key keyid profile = inr conn ->
  attribute ∈ attribute_list ->
  truthy instance_name = false ->
  truthy instance_id = true ->
  let answer := conn_modify_instance_attribute conn t instance_id attribute
                  attribute_value in
  let r := set_attribute w attribute attribute_value instance_name instance_id
             region key keyid profile t in
  let t' := t ++ [ModifyInstanceAttribute instance_id attribute attribute_value] in
  (forall v, answer = inr v -> truthy v = true -> r = (Ret v, t'))
  /\ (forall v, answer = inr v -> truthy v = false -> r = (Ret (VBool false), t'))
  /\ (forall e, answer = inl e -> is_BotoServerError e = true ->
      r = (Ret (VBool false), t')).
Proof.
  intros Hconn Hin Hn Hi answer r t'. subst answer r t'.
  apply in_attribute_list_true in Hin.
  unfold set_attribute, lift, py_and, resolve_instance_id.
  rewrite Hconn, Hn, Hi, Hin. cbn [orb negb].
  unfold try_except, bind, ret, request. cbn beta iota. rewrite Hn. cbn beta iota.
  split; [| split].
  - intros v -> Hv. by rewrite Hv.
  - intros v -> Hv. by rewrite Hv.
  - intros e -> He. by rewrite He.
Qed.

Lemma set_attribute_by_id_witness :
  set_attribute world_one "sourceDestCheck" (VBool false) VNone (VStr "i-0001")
    VNone VNone VNone VNone []
  = (Ret (VBool true),
     [ModifyInstanceAttribute (VStr "i-0001") "sourceDestCheck" (VBool false)]).
Proof.
  assert (Hin : "sourceDestCheck" ∈ attribute_list)
    by (apply in_attribute_list_true; reflexivity).
  destruct (set_attribute_by_id world_one conn_one "sourceDestCheck" (VBool false) VNone
              (VStr "i-0001") VNone VNone VNone VNone [] eq_refl Hin eq_refl eq_refl)
    as [H _].
  apply (H (VBool true) eq_refl eq_refl).
Defined.

(** [find_instances] returning ids, for a selector without tags. *)
Lemma find_instances_ids w conn iid name region key keyid profile t :
  _get_conn w region key keyid profile = inr conn ->
  find_instances w iid name VNone region key keyid profile false t =
    (match instance_matches conn t iid name with
     | Ret [] => Ret (VBool false)
     | Ret l =>
         match ids_of l with
         | Ret ids => Ret (VList ids)
         | Raise e => caught (Raise e)
         | OutOfFuel => OutOfFuel
         end
     | Raise e => caught (Raise e)
     | OutOfFuel => OutOfFuel
     end, t ++ [instance_lookup iid name]).
Proof.
  intros Hconn.
  rewrite (find_instances_eq _ _ _ _ _ _ _ _ _ _ _ _ Hconn (tag_filters_None _ _)).
  unfold instance_matches, instance_lookup, ids_of.
  destruct (conn_get_all_instances _ _ _ _) as [e | rs]; [reflexivity |].
  by destruct (reservation_instances rs []).1 as [[| i l] | e |].
Qed.

(** X8. Given an [instance_name] that matches exactly one instance,
    [get_attribute] and [set_attribute] behave as the lookup followed by the
    same call with that instance's id; given a name that matches several,
    they raise [CommandExecutionError] after the lookup. *)
Theorem attribute_name_resolved
    w conn attribute attribute_value instance_name instance_id
    region key keyid profile t :
  _get_conn w region key keyid profile = inr conn ->
  attribute ∈ attribute_list ->
  truthy instance_name = true ->
  truthy instance_id = false ->
  let t' := t ++ [instance_lookup VNone instance_name] in
  (forall i id, instance_matches conn t VNone instance_name = Ret [i] ->
     ids_of [i] = Ret [id] -> truthy id = true ->
     get_attribute w attribute instance_name instance_id region key keyid profile t
     = get_attribute w attribute VNone id region key keyid profile t'
     /\ set_attribute w attribute attribute_value instance_name instance_id
          region key keyid profile t
        = set_attribute w attribute attribute_value VNone id region key keyid profile t')
  /\ (forall l ids, instance_matches conn t VNone instance_name = Ret l ->
      (2 <= length l)%nat -> ids_of l = Ret ids ->
      let e := CommandExecutionError
                 "Found more than one EC2 instance matching the criteria." in
      get_attribute w attribute instance_name instance_id region key keyid profile t
      = (Raise e, t')
      /\ set_attribute w attribute attribute_value instance_name instance_id
           region key keyid profile t
         = (Raise e, t')).
Proof.
  intros Hconn Hin Hn Hi t'. subst t'. apply in_attribute_list_true in Hin.
  unfold get_attribute, set_attribute, lift, py_and, resolve_instance_id.
  rewrite Hconn, Hn, Hi, Hin. cbn [orb negb truthy].
  unfold try_except, bind, ret. cbn beta iota. rewrite ?Hi. cbn beta iota.
  rewrite (find_instances_ids _ _ _ _ _ _ _ _ _ Hconn).
  split.
  - intros i id -> -> Hid. rewrite Hid. split; reflexivity.
  - intros l ids -> Hlen Hids. pose proof (ids_of_length _ _ Hids) as Hl.
    rewrite Hids. destruct l as [| i [| j l]]; simpl in Hlen; try lia.
    destruct ids as [| a [| b ids]]; simpl in Hl; try lia.
    assert (Hne : (Z.of_nat (length (a :: b :: ids)) =? 1) = false)
      by (apply Z.eqb_neq; simpl length; lia).
    cbn [py_len]. unfold ret. rewrite Hne. split; reflexivity.
Qed.

Lemma attribute_name_resolved_witness :
  get_attribute world_one "kernel" (VStr "web") VNone VNone VNone VNone VNone []
  = get_attribute world_one "kernel" VNone (VStr "i-0001") VNone VNone VNone VNone
      [instance_lookup VNone (VStr "web")]
  /\ get_attribute world_two "kernel" (VStr "web") VNone VNone VNone VNone VNone []
     = (Raise (CommandExecutionError
                 "Found more than one EC2 instance matching the criteria."),
        [instance_lookup VNone (VStr "web")]).
Proof.
  assert (Hin : "kernel" ∈ attribute_list)
    by (apply in_attribute_list_true; reflexivity).
  split.
  - destruct (attribute_name_resolved world_one conn_one "kernel" VNone (VStr "web")
                VNone VNone VNone VNone VNone [] eq_refl Hin eq_refl eq_refl) as [H _].
    apply (H instance1 (VStr "i-0001") eq_refl eq_refl eq_refl).
  - destruct (attribute_name_resolved world_two conn_two "kernel" VNone (VStr "web")
                VNone VNone VNone VNone VNone [] eq_refl Hin eq_refl eq_refl) as [_ H].
    apply (H [instance1; instance2] [VStr "i-0001"; VStr "i-0002"] eq_refl);
      [simpl; lia | reflexivity].
Defined.

(** ** Describing a network interface *)

Lemma getattr_attr_of v a t :
  getattr v a t = (match attr_of v a with Some x => Ret x | None => Raise AttributeError end, t).
Proof. destruct v; try reflexivity. simpl. by destruct (attrs !! a). Qed.

Lemma hasattr_attr_of v a : hasattr v a = bool_decide (is_Some (attr_of v a)).
Proof.
  destruct v; simpl; try reflexivity;
    symmetry; apply bool_decide_eq_false; by intros [].
Qed.

Lemma copy_attrs_eq o l : forall r t, copy_attrs o l r t = (Ret (copied o l r), t).
Proof.
  induction l as [| a l IH]; intros r t; [reflexivity |].
  cbn [copy_attrs]. rewrite hasattr_attr_of. unfold copied. cbn [foldl].
  destruct (attr_of o a) as [x |] eqn:E.
  - rewrite bool_decide_eq_true_2 by (by eexists).
    unfold bind. rewrite getattr_attr_of, E. apply IH.
  - rewrite bool_decide_eq_false_2 by (by intros []). apply IH.
Qed.

Lemma copied_lookup o l : forall r a,
  copied o l r !! a
  = match attr_of o a with
    | Some x => if decide (a ∈ l) then Some x else r !! a
    | None => r !! a
    end.
Proof.
  induction l as [| b l IH]; intros r a.
  - unfold copied. cbn [foldl]. destruct (attr_of o a); [| done].
    case_decide as Hin; [| done]. by apply not_elem_of_nil in Hin.
  - unfold copied in *. cbn [foldl]. rewrite IH.
    destruct (attr_of o a) as [x |] eqn:Ea.
    + destruct (decide (a ∈ l)) as [Hin | Hnin].
      * by rewrite decide_True by (by right).
      * destruct (decide (a = b)) as [-> | Hne].
        -- rewrite Ea, lookup_insert_eq. by rewrite decide_True by left.
        -- rewrite decide_False by (rewrite elem_of_cons; tauto).
           destruct (attr_of o b); [by rewrite lookup_insert_ne |]; done.
    + destruct (decide (a = b)) as [-> | Hne]; [by rewrite Ea |].
      destruct (attr_of o b); [by rewrite lookup_insert_ne |]; done.
Qed.

Lemma silent_copy_attrs o l r : silent (copy_attrs o l r).
Proof. intros t. by rewrite !copy_attrs_eq. Qed.

Lemma silent_describe eni : silent (_describe_network_interface eni).
Proof.
  unfold _describe_network_interface.
  repeat first
    [ apply silent_ret
    | apply silent_copy_attrs
    | apply silent_getattr
    | apply silent_py_iter
    | apply silent_mapM; intros ?
    | apply silent_bind; [| intros ?] ].
Qed.

Lemma described_eq eni info t :
  described eni info -> _describe_network_interface eni t = (Ret info, t).
Proof. intros H. rewrite silent_describe. unfold described in H. by rewrite H. Qed.

Lemma bind_Ret_inv {A B} (m : M A) (k : A -> M B) t b t' :
  bind m k t = (Ret b, t') ->
  exists a t1, m t = (Ret a, t1) /\ k a t1 = (Ret b, t').
Proof.
  unfold bind. destruct (m t) as [[a | e |] t1]; try discriminate. eauto.
Qed.

Lemma getattr_Ret_inv v a t x t' :
  getattr v a t = (Ret x, t') -> attr_of v a = Some x /\ t' = t.
Proof.
  rewrite getattr_attr_of. destruct (attr_of v a); [| discriminate].
  by intros [= -> ->].
Qed.

(** The body of [_describe_network_interface], to be rewritten with. *)
Lemma describe_unfold :
  _describe_network_interface
  = ltac:(let b := eval unfold _describe_network_interface
                   in _describe_network_interface in exact b).
Proof. reflexivity. Qed.

Lemma added_keys_not_probed :
  ("attachment" ∉ eni_attributes) /\ ("private_ip_addresses" ∉ eni_attributes)
  /\ ("groups" ∉ eni_attributes) /\ ("region" ∉ eni_attributes).
Proof.
  repeat split; apply (bool_decide_eq_false_1 _); vm_compute; reflexivity.
Qed.

Lemma copy_attrs_Ret_inv o l r t r' t' :
  copy_attrs o l r t = (Ret r', t') -> r' = copied o l r /\ t' = t.
Proof. rewrite copy_attrs_eq. by intros [= <- <-]. Qed.

Lemma silent_Ret_inv {A} (m : M A) t a t' :
  silent m -> m t = (Ret a, t') -> t' = t.
Proof. intros Hs H. rewrite Hs in H. by injection H as _ <-. Qed.

Lemma ret_Ret_inv {A} (a b : A) t t' : ret a t = (Ret b, t') -> a = b /\ t' = t.
Proof. by intros [= <- <-]. Qed.

(** X9. [_describe_network_interface] sends no request, and its record
    holds each probed attribute exactly when the interface has it: a field
    absent on the interface is absent from the record, not null. The record
    always has ['groups'], ['private_ip_addresses'] and ['attachment'], the
    last holding the probed attributes the attachment has, and nothing for
    an interface that is not attached. *)
Theorem describe_network_interface_projects eni info t t' :
  _describe_network_interface eni t = (Ret info, t') ->
  t' = t
  /\ (forall a, a ∈ eni_attributes -> info !! a = attr_of eni a)
  /\ (exists region groups addresses attachment att,
        info !! "region" = Some region
        /\ info !! "groups" = Some (VList groups)
        /\ info !! "private_ip_addresses" = Some (VList addresses)
        /\ attr_of eni "attachment" = Some att
        /\ info !! "attachment" = Some (VDict attachment)
        /\ (forall k, attachment !! k
                      = if decide (k ∈ attachment_attributes) then attr_of att k
                        else None)).
Proof.
  intros H. rewrite describe_unfold in H. cbv beta in H.
  apply bind_Ret_inv in H as (r & t1 & H1 & H).
  apply copy_attrs_Ret_inv in H1 as [Hr ->].
  apply bind_Ret_inv in H as (region & t1 & H1 & H).
  apply getattr_Ret_inv in H1 as [_ ->].
  apply bind_Ret_inv in H as (region_name & t1 & H1 & H).
  apply getattr_Ret_inv in H1 as [_ ->].
  apply bind_Ret_inv in H as (g0 & t1 & H1 & H).
  apply getattr_Ret_inv in H1 as [_ ->].
  apply bind_Ret_inv in H as (g1 & t1 & H1 & H).
  apply (silent_Ret_inv _ _ _ _ (silent_py_iter _)) in H1 as ->.
  apply bind_Ret_inv in H as (groups & t1 & H1 & H).
  apply silent_Ret_inv in H1 as ->;
    [| apply silent_mapM; intros ?;
       repeat first [apply silent_ret | apply silent_getattr
                    | apply silent_bind; [| intros ?]]].
  apply bind_Ret_inv in H as (a0 & t1 & H1 & H).
  apply getattr_Ret_inv in H1 as [_ ->].
  apply bind_Ret_inv in H as (a1 & t1 & H1 & H).
  apply (silent_Ret_inv _ _ _ _ (silent_py_iter _)) in H1 as ->.
  apply bind_Ret_inv in H as (addresses & t1 & H1 & H).
  apply silent_Ret_inv in H1 as ->;
    [| apply silent_mapM; intros ?;
       repeat first [apply silent_ret | apply silent_getattr
                    | apply silent_bind; [| intros ?]]].
  apply bind_Ret_inv in H as (att & t1 & H1 & H).
  apply getattr_Ret_inv in H1 as [Hatt ->].
  apply bind_Ret_inv in H as (a & t1 & H1 & H).
  apply copy_attrs_Ret_inv in H1 as [Ha ->].
  apply ret_Ret_inv in H as [Hinfo ->].
  split; [reflexivity |]. split.
  - intros k Hk. rewrite <- Hinfo.
    assert (Hne : forall k', k' ∉ eni_attributes -> k' <> k) by (intros k' Hk' ->; done).
    destruct added_keys_not_probed as (H1 & H2 & H3 & H4).
    rewrite !lookup_insert_ne by (by apply Hne).
    rewrite Hr, copied_lookup, lookup_empty.
    destruct (attr_of eni k); [by rewrite decide_True by exact Hk | done].
  - exists region_name, groups, addresses, a, att. rewrite <- Hinfo.
    split; [by rewrite !lookup_insert_ne, lookup_insert_eq by done |].
    split; [by rewrite !lookup_insert_ne, lookup_insert_eq by done |].
    split; [by rewrite !lookup_insert_ne, lookup_insert_eq by done |].
    split; [exact Hatt |].
    split; [by rewrite lookup_insert_eq |].
    intros k. rewrite Ha, copied_lookup, lookup_empty. unfold attachment_attributes.
    destruct (decide (k ∈ _)); by destruct (attr_of att k).
Qed.

(** ** Operations on one resolved interface *)

(** The example interfaces, described. *)
Lemma eni1_described :
  exists info,
    described eni1 info
    /\ info !! "id" = Some (VStr "eni-1")
    /\ info !! "vpc_id" = Some (VStr "vpc-1")
    /\ info !! "attachment" = Some (VDict ∅).
Proof. eexists. repeat split; vm_compute; reflexivity. Qed.

Lemma eni_attached_described :
  exists info,
    described eni_attached info
    /\ info !! "id" = Some (VStr "eni-3")
    /\ info !! "vpc_id" = None
    /\ info !! "attachment"
       = Some (VDict (<["id" := VStr "eni-attach-1"]>
                      {[ "instance_id" := VStr "i-0001" ]})).
Proof. eexists. repeat split; vm_compute; reflexivity. Qed.

Lemma described_id_eq eni info r t :
  described eni info ->
  described_id eni r t
  = (match info !! "id" with
     | Some id => Ret (inr id)
     | None => Ret (inl (VDict (<["error" :=
                 message "ID not found for this network interface."]> r)))
     end, t).
Proof.
  intros H. unfold described_id, try_except, bind.
  rewrite (described_eq _ _ _ H). simpl. by destruct (info !! "id").
Qed.

Lemma attachment_id_of_eq info t :
  attachment_id_of info t
  = (match info !! "attachment" with
     | None => Ret None
     | Some (VDict a) => Ret (a !! "id")
     | Some _ => Raise TypeError
     end, t).
Proof.
  unfold attachment_id_of, try_except, bind. simpl.
  destruct (info !! "attachment") as [[| | | | | a |] |]; try reflexivity.
  simpl. by destruct (a !! "id").
Qed.

(** The resolver finding exactly one interface. *)
Lemma _get_network_interface_one w conn name nid t eni :
  truthy (py_or name nid) = true ->
  eni_matches conn t name nid = inr [eni] ->
  _get_network_interface w conn name nid t
  = (Ret (<["result" := eni]> ∅), t ++ [eni_lookup name nid]).
Proof. intros Hsel Hm. by rewrite (_get_network_interface_eq _ _ _ _ _ Hsel), Hm. Qed.

Lemma has_key_result_only v k :
  k ≠ "result" -> has_key (<["result" := v]> ∅) k = false.
Proof. intros H. by rewrite has_key_insert_ne, has_key_empty. Qed.

Lemma describe_network_interface_projects_witness :
  exists info,
    described eni1 info
    /\ info !! "id" = Some (VStr "eni-1")
    /\ info !! "status" = None.
Proof.
  destruct eni1_described as (info & Hd & _).
  exists info. split; [exact Hd |].
  destruct (describe_network_interface_projects eni1 info [] []
              (described_eq _ _ _ Hd)) as (_ & Hc & _).
  split; (rewrite Hc; [reflexivity | apply (bool_decide_eq_true_1 _); vm_compute; reflexivity]).
Defined.

(** X10. [delete_network_interface], for a selector that matches exactly one
    interface: it sends the delete request for the described id and returns
    the answer under ['result'], or the provider's error under ['error'];
    for an interface without an id it returns the 'ID not found' envelope
    and sends no delete request. *)
Theorem delete_network_interface_one
    w conn name nid region key keyid profile t eni info :
  _get_conn w region key keyid profile = inr conn ->
  truthy (py_or name nid) = true ->
  eni_matches conn t name nid = inr [eni] ->
  described eni info ->
  let r := delete_network_interface w name nid region key keyid profile t in
  let t1 := t ++ [eni_lookup name nid] in
  (forall id, info !! "id" = Some id ->
     (forall x, conn_delete_network_interface conn t1 id = inr x ->
        r = (Ret (VDict {[ "result" := x ]}), t1 ++ [DeleteNetworkInterface id]))
     /\ (forall e, conn_delete_network_interface conn t1 id = inl e ->
         is_EC2ResponseError e = true ->
         r = (Ret (VDict {[ "error" := get_error w e ]}),
              t1 ++ [DeleteNetworkInterface id])))
  /\ (info !! "id" = None ->
      r = (Ret (VDict {[ "error" :=
                  message "ID not found for this network interface." ]}), t1)).
Proof.
  intros Hconn Hsel Hm Hd r t1. subst r t1.
  assert (Hr : delete_network_interface w name nid region key keyid profile t
               = match info !! "id" with
                 | Some id =>
                     (match conn_delete_network_interface conn
                              (t ++ [eni_lookup name nid]) id with
                      | inr x => Ret (VDict {[ "result" := x ]})
                      | inl e => if is_EC2ResponseError e
                                 then Ret (VDict {[ "error" := get_error w e ]})
                                 else Raise e
                      end,
                      (t ++ [eni_lookup name nid]) ++ [DeleteNetworkInterface id])
                 | None =>
                     (Ret (VDict {[ "error" :=
                        message "ID not found for this network interface." ]}),
                      t ++ [eni_lookup name nid])
                 end).
  { unfold delete_network_interface, lift. rewrite Hsel, Hconn. cbn [negb].
    unfold bind at 1. unfold ret at 1. unfold bind at 1.
    rewrite (_get_network_interface_one _ _ _ _ _ _ Hsel Hm).
    rewrite has_key_result_only by done.
    unfold bind at 1. cbn [getitem]. rewrite lookup_insert_eq. unfold ret at 1.
    unfold bind at 1. rewrite (described_id_eq _ _ _ _ Hd). rewrite !insert_empty.
    destruct (info !! "id") as [id |]; [| reflexivity].
    unfold bind, try_except, request, ret.
    destruct (conn_delete_network_interface conn _ id) as [e | x];
      [by destruct (is_EC2ResponseError e) | reflexivity]. }
  rewrite Hr. split.
  - intros id ->. split.
    + by intros x ->.
    + intros e -> He. by rewrite He.
  - by intros ->.
Qed.

Lemma delete_network_interface_one_witness :
  delete_network_interface world_one (VStr "my_eni") VNone VNone VNone VNone VNone []
  = (Ret (VDict {[ "result" := VBool true ]}),
     [eni_lookup (VStr "my_eni") VNone] ++ [DeleteNetworkInterface (VStr "eni-1")]).
Proof.
  destruct eni1_described as (info & Hd & Hid & _).
  destruct (delete_network_interface_one world_one conn_one (VStr "my_eni") VNone
              VNone VNone VNone VNone [] eni1 info eq_refl eq_refl eq_refl Hd)
    as [H _].
  destruct (H _ Hid) as [Hok _]. apply (Hok (VBool true) eq_refl).
Defined.

(** The resolver finding none or several, with its message. *)
Lemma _get_network_interface_refuses w conn name nid t l :
  truthy (py_or name nid) = true ->
  eni_matches conn t name nid = inr l ->
  length l <> 1%nat ->
  _get_network_interface w conn name nid t
  = (Ret (<["error" := message
             (match l with
              | [] => "No ENIs found."
              | _ => "Name specified is tagged on multiple ENIs."
              end)]> ∅), t ++ [eni_lookup name nid]).
Proof.
  intros Hsel Hm Hl. rewrite (_get_network_interface_eq _ _ _ _ _ Hsel), Hm.
  by destruct l as [| a [| b l]].
Qed.

(** X11. When the selector matches no interface or several,
    [delete_network_interface], [attach_network_interface],
    [detach_network_interface] (without an attachment id) and
    [modify_network_interface_attribute] return the resolver's error
    envelope, and their trace holds the lookup only: nothing is mutated on
    an ambiguous or empty selection. *)
Theorem network_interface_not_unique_refused
    w conn name nid region key keyid profile t l :
  _get_conn w region key keyid profile = inr conn ->
  truthy (py_or name nid) = true ->
  eni_matches conn t name nid = inr l ->
  length l <> 1%nat ->
  let msg := match l with
             | [] => "No ENIs found."
             | _ => "Name specified is tagged on multiple ENIs."
             end in
  let refused := (Ret (VDict {[ "error" := message msg ]}),
                  t ++ [eni_lookup name nid]) in
  delete_network_interface w name nid region key keyid profile t = refused
  /\ (forall instance_id device_index,
        truthy (py_and instance_id device_index) = true ->
        attach_network_interface w name nid instance_id device_index
          region key keyid profile t = refused)
  /\ (forall attachment_id force,
        truthy attachment_id = false ->
        detach_network_interface w name nid attachment_id force
          region key keyid profile t = refused)
  /\ (forall attr val,
        is_None attr && is_None val = false ->
        modify_network_interface_attribute w name nid attr val
          region key keyid profile t = refused).
Proof.
  intros Hconn Hsel Hm Hl msg refused. subst msg refused.
  pose proof (_get_network_interface_refuses w _ _ _ _ _ Hsel Hm Hl) as Hr.
  rewrite <- insert_empty.
  split; [| split; [| split]].
  - unfold delete_network_interface, lift. rewrite Hsel, Hconn. cbn [negb].
    unfold bind, ret. rewrite Hr. by rewrite has_key_insert_eq.
  - intros instance_id device_index Ha.
    unfold attach_network_interface, lift. rewrite Hsel, Ha, Hconn. cbn [negb].
    unfold bind, ret. rewrite Hr. by rewrite has_key_insert_eq.
  - intros attachment_id force Ha.
    unfold detach_network_interface, lift.
    assert (Hs : truthy (py_or (py_or name nid) attachment_id) = true).
    { unfold py_or at 1. by rewrite Hsel. }
    rewrite Hs, Ha, Hconn. cbn [negb].
    unfold bind, ret. rewrite Hr. by rewrite has_key_insert_eq.
  - intros attr val Ha.
    unfold modify_network_interface_attribute, lift. rewrite Hsel, Ha, Hconn.
    cbn [negb]. unfold bind, ret. rewrite Hr. by rewrite has_key_insert_eq.
Qed.

Lemma network_interface_not_unique_refused_witness :
  delete_network_interface world_two (VStr "my_eni") VNone VNone VNone VNone VNone []
  = (Ret (VDict {[ "error" := message "Name specified is tagged on multiple ENIs." ]}),
     [] ++ [eni_lookup (VStr "my_eni") VNone]).
Proof.
  assert (Hl : length [eni1; eni2] <> 1%nat) by (simpl; lia).
  destruct (network_interface_not_unique_refused world_two conn_two (VStr "my_eni")
              VNone VNone VNone VNone VNone [] [eni1; eni2] eq_refl eq_refl eq_refl Hl)
    as (H & _).
  exact H.
Defined.

(** X12. [attach_network_interface], given an instance id, a device index
    other than 0 and a selector that matches exactly one interface, sends
    the attach request for the described id, the instance and the index, and
    returns the answer under ['result'], or the provider's error under
    ['error']. *)
Theorem attach_network_interface_one
    w conn name nid instance_id device_index region key keyid profile t eni info id :
  _get_conn w region key keyid profile = inr conn ->
  truthy (py_or name nid) = true ->
  truthy (py_and instance_id device_index) = true ->
  eni_matches conn t name nid = inr [eni] ->
  described eni info ->
  info !! "id" = Some id ->
  let r := attach_network_interface w name nid instance_id device_index
             region key keyid profile t in
  let t1 := t ++ [eni_lookup name nid] in
  let c := AttachNetworkInterface id instance_id device_index in
  (forall x, conn_attach_network_interface conn t1 id instance_id device_index = inr x ->
     r = (Ret (VDict {[ "result" := x ]}), t1 ++ [c]))
  /\ (forall e, conn_attach_network_interface conn t1 id instance_id device_index = inl e ->
      is_EC2ResponseError e = true ->
      r = (Ret (VDict {[ "error" := get_error w e ]}), t1 ++ [c])).
Proof.
  intros Hconn Hsel Ha Hm Hd Hid r t1 c. subst r t1 c.
  assert (Hr : attach_network_interface w name nid instance_id device_index
                 region key keyid profile t
               = (match conn_attach_network_interface conn
                          (t ++ [eni_lookup name nid]) id instance_id device_index with
                  | inr x => Ret (VDict {[ "result" := x ]})
                  | inl e => if is_EC2ResponseError e
                             then Ret (VDict {[ "error" := get_error w e ]})
                             else Raise e
                  end,
                  (t ++ [eni_lookup name nid])
                    ++ [AttachNetworkInterface id instance_id device_index])).
  { unfold attach_network_interface, lift. rewrite Hsel, Ha, Hconn. cbn [negb].
    unfold bind at 1. unfold ret at 1. unfold bind at 1.
    rewrite (_get_network_interface_one _ _ _ _ _ _ Hsel Hm).
    rewrite has_key_result_only by done.
    unfold bind at 1. cbn [getitem]. rewrite lookup_insert_eq. unfold ret at 1.
    unfold bind at 1. rewrite (described_id_eq _ _ _ _ Hd), Hid.
    unfold bind, try_except, request, ret.
    destruct (conn_attach_network_interface conn _ id _ _) as [e | x];
      [by destruct (is_EC2ResponseError e) | reflexivity]. }
  rewrite Hr. split.
  - by intros x ->.
  - intros e -> He. by rewrite He.
Qed.

Lemma attach_network_interface_one_witness :
  attach_network_interface world_one (VStr "my_eni") VNone (VStr "i-0001") (VInt 1)
    VNone VNone VNone VNone []
  = (Ret (VDict {[ "result" := VBool true ]}),
     [eni_lookup (VStr "my_eni") VNone]
       ++ [AttachNetworkInterface (VStr "eni-1") (VStr "i-0001") (VInt 1)]).
Proof.
  destruct eni1_described as (info & Hd & Hid & _).
  destruct (attach_network_interface_one world_one conn_one (VStr "my_eni") VNone
              (VStr "i-0001") (VInt 1) VNone VNone VNone VNone [] eni1 info _
              eq_refl eq_refl eq_refl eq_refl Hd Hid) as [H _].
  apply (H (VBool true) eq_refl).
Defined.

(** X13. [detach_network_interface] given an attachment id sends the detach
    request for it without looking the interface up; given a selector that
    matches exactly one interface it detaches the attachment the interface
    describes, and for an interface that is not attached it returns the
    'Attachment id not found' envelope without a detach request. *)
Theorem detach_network_interface_attachment
    w conn name nid attachment_id force region key keyid profile t :
  _get_conn w region key keyid profile = inr conn ->
  let r := detach_network_interface w name nid attachment_id force
             region key keyid profile t in
  let answered t1 id :=
    (match conn_detach_network_interface conn t1 id force with
     | inr x => Ret (VDict {[ "result" := x ]})
     | inl e => if is_EC2ResponseError e
                then Ret (VDict {[ "error" := get_error w e ]})
                else Raise e
     end, t1 ++ [DetachNetworkInterface id force]) in
  (truthy attachment_id = true -> r = answered t attachment_id)
  /\ (forall eni info a,
        truthy attachment_id = false ->
        truthy (py_or name nid) = true ->
        eni_matches conn t name nid = inr [eni] ->
        described eni info ->
        info !! "attachment" = Some (VDict a) ->
        let t1 := t ++ [eni_lookup name nid] in
        (forall id, a !! "id" = Some id -> r = answered t1 id)
        /\ (a !! "id" = None ->
            r = (Ret (VDict {[ "error" :=
                        message "Attachment id not found for this ENI." ]}), t1))).
Proof.
  intros Hconn r answered. subst r answered. cbn beta.
  unfold detach_network_interface, lift. split.
  - intros Ha.
    assert (Hs : truthy (py_or (py_or name nid) attachment_id) = true).
    { unfold py_or at 1. destruct (truthy (py_or name nid)) eqn:E; [exact E | exact Ha]. }
    rewrite Hs, Ha, Hconn. cbn [negb].
    unfold bind, try_except, request, ret.
    destruct (conn_detach_network_interface conn t attachment_id force) as [e | x];
      [by destruct (is_EC2ResponseError e) | done].
  - intros eni info a Ha Hsel Hm Hd Hatt. cbn zeta.
    assert (Hs : truthy (py_or (py_or name nid) attachment_id) = true).
    { unfold py_or at 1. by rewrite Hsel. }
    rewrite Hs, Ha, Hconn. cbn [negb].
    split; [intros id Hid | intros Hid];
      (unfold bind at 1; unfold ret at 1; unfold bind at 1; unfold bind at 1;
       rewrite (_get_network_interface_one _ _ _ _ _ _ Hsel Hm);
       rewrite has_key_result_only by done;
       unfold bind at 1; cbn [getitem]; rewrite lookup_insert_eq; unfold ret at 1;
       unfold bind at 1; rewrite (described_eq _ _ _ Hd);
       unfold bind at 1; rewrite attachment_id_of_eq, Hatt, Hid).
    + unfold bind, try_except, request, ret.
      destruct (conn_detach_network_interface conn _ id force) as [e | x];
        [by destruct (is_EC2ResponseError e) | done].
    + reflexivity.
Qed.

Lemma detach_network_interface_attachment_witness :
  detach_network_interface world_one VNone VNone (VStr "eni-attach-9") (VBool false)
    VNone VNone VNone VNone []
  = (Ret (VDict {[ "result" := VBool true ]}),
     [DetachNetworkInterface (VStr "eni-attach-9") (VBool false)])
  /\ detach_network_interface world_one (VStr "my_eni") VNone VNone (VBool false)
       VNone VNone VNone VNone []
     = (Ret (VDict {[ "error" := message "Attachment id not found for this ENI." ]}),
        [eni_lookup (VStr "my_eni") VNone])
  /\ detach_network_interface world_attached (VStr "my_eni") VNone VNone (VBool false)
       VNone VNone VNone VNone []
     = (Ret (VDict {[ "result" := VBool true ]}),
        [eni_lookup (VStr "my_eni") VNone]
          ++ [DetachNetworkInterface (VStr "eni-attach-1") (VBool false)]).
Proof.
  split; [| split].
  - destruct (detach_network_interface_attachment world_one conn_one VNone VNone
                (VStr "eni-attach-9") (VBool false) VNone VNone VNone VNone []
                eq_refl) as [H _].
    apply (H eq_refl).
  - destruct eni1_described as (info & Hd & _ & _ & Hatt).
    destruct (detach_network_interface_attachment world_one conn_one (VStr "my_eni")
                VNone VNone (VBool false) VNone VNone VNone VNone [] eq_refl)
      as [_ H].
    destruct (H eni1 info ∅ eq_refl eq_refl eq_refl Hd Hatt) as [_ Hnone].
    apply Hnone. apply lookup_empty.
  - destruct eni_attached_described as (info & Hd & _ & _ & Hatt).
    destruct (detach_network_interface_attachment world_attached conn_attached
                (VStr "my_eni") VNone VNone (VBool false) VNone VNone VNone VNone []
                eq_refl) as [_ H].
    destruct (H eni_attached info _ eq_refl eq_refl eq_refl Hd Hatt) as [Hsome _].
    apply (Hsome (VStr "eni-attach-1")). reflexivity.
Defined.

(** ** Modifying an attribute of a network interface *)

(** The statements of [modify_network_interface_attribute] up to the
    translation of [attr], for one resolved and described interface. *)
Ltac modify_resolved Hconn Hsel Hav Hm Hd Hid :=
  unfold modify_network_interface_attribute, lift;
  rewrite Hsel, Hav, Hconn; cbn [negb];
  unfold bind at 1; unfold ret at 1; unfold bind at 1;
  rewrite (_get_network_interface_one _ _ _ _ _ _ Hsel Hm);
  rewrite has_key_result_only by done;
  unfold bind at 1; cbn [getitem]; rewrite lookup_insert_eq; unfold ret at 1;
  unfold bind at 1; rewrite (described_eq _ _ _ Hd);
  unfold bind at 1; rewrite Hid; unfold ret at 1;
  unfold bind at 1; cbn [dict_get]; unfold ret at 1.

(** X14. [modify_network_interface_attribute] with [attr] equal to
    'delete_on_termination', on one resolved interface: the request names
    the attribute 'deleteOnTermination' and carries the attachment id the
    interface describes; for an interface that is not attached it returns
    the 'No attachment id found' envelope and sends no modify request. *)
Theorem modify_delete_on_termination
    w conn name nid val region key keyid profile t eni info id a :
  _get_conn w region key keyid profile = inr conn ->
  truthy (py_or name nid) = true ->
  eni_matches conn t name nid = inr [eni] ->
  described eni info ->
  info !! "id" = Some id ->
  info !! "attachment" = Some (VDict a) ->
  let r := modify_network_interface_attribute w name nid
             (VStr "delete_on_termination") val region key keyid profile t in
  let t1 := t ++ [eni_lookup name nid] in
  (forall aid,
     a !! "id" = Some aid ->
     let c := ModifyNetworkInterfaceAttribute id (VStr "deleteOnTermination") val aid in
     r.2 = t1 ++ [c]
     /\ (forall x, conn_modify_network_interface_attribute conn t1 id
                    (VStr "deleteOnTermination") val aid = inr x ->
         r.1 = Ret (VDict {[ "result" := x ]})))
  /\ (a !! "id" = None ->
      r = (Ret (VDict {[ "error" := message
             ("No attachment id found for this ENI. The ENI must"
              +:+ " be attached before delete_on_termination can be"
              +:+ " modified") ]}), t1)).
Proof.
  intros Hconn Hsel Hm Hd Hid Hatt r t1. subst r t1.
  assert (Hav : is_None (VStr "delete_on_termination") && is_None val = false)
    by reflexivity.
  split; [intros aid Ha c; subst c; split; [| intros x Hx] | intros Ha];
    (modify_resolved Hconn Hsel Hav Hm Hd Hid;
     cbn [eq_str String.eqb Ascii.eqb Bool.eqb]; rewrite andb_false_r;
     unfold bind at 1; unfold ret at 1; unfold bind at 1; unfold bind at 1;
     rewrite attachment_id_of_eq, Hatt, Ha).
  - unfold ret at 1, bind, try_except, request, ret.
    destruct (conn_modify_network_interface_attribute conn _ id _ val aid)
      as [e | x]; [by destruct (is_EC2ResponseError e) | reflexivity].
  - unfold ret at 1, bind, try_except, request, ret. by rewrite Hx.
  - reflexivity.
Qed.

Lemma modify_delete_on_termination_witness :
  modify_network_interface_attribute world_one (VStr "my_eni") VNone
    (VStr "delete_on_termination") (VBool true) VNone VNone VNone VNone []
  = (Ret (VDict {[ "error" := message
        ("No attachment id found for this ENI. The ENI must"
         +:+ " be attached before delete_on_termination can be"
         +:+ " modified") ]}),
     [eni_lookup (VStr "my_eni") VNone]).
Proof.
  destruct eni1_described as (info & Hd & Hid & _ & Hatt).
  destruct (modify_delete_on_termination world_one conn_one (VStr "my_eni") VNone
              (VBool true) VNone VNone VNone VNone [] eni1 info _ ∅
              eq_refl eq_refl eq_refl Hd Hid Hatt) as [_ H].
  apply H. apply lookup_empty.
Defined.

(** X15. [modify_network_interface_attribute] with [attr] equal to
    'groups', on one resolved interface in a VPC: the security groups are
    first converted to ids for that VPC; when the conversion gives nothing
    the operation returns the 'Security groups do not map' envelope and
    sends no modify request, otherwise the modify request names the
    attribute 'groupSet' and carries the converted ids. *)
Theorem modify_groups_converted
    w conn name nid val region key keyid profile t eni info id vpc_id :
  _get_conn w region key keyid profile = inr conn ->
  truthy (py_or name nid) = true ->
  eni_matches conn t name nid = inr [eni] ->
  described eni info ->
  info !! "id" = Some id ->
  info !! "vpc_id" = Some vpc_id ->
  truthy vpc_id = true ->
  let r := modify_network_interface_attribute w name nid (VStr "groups") val
             region key keyid profile t in
  let t1 := t ++ [eni_lookup name nid] in
  let t2 := t1 ++ [ConvertToGroupIds val vpc_id] in
  let converted := convert_to_group_ids w t1 val vpc_id (region, key, keyid, profile) in
  (forall ids, converted = inr ids -> truthy ids = false ->
     r = (Ret (VDict {[ "error" := message
            "Security groups do not map to valid security group ids" ]}), t2))
  /\ (forall ids, converted = inr ids -> truthy ids = true ->
      r.2 = t2 ++ [ModifyNetworkInterfaceAttribute id (VStr "groupSet") ids VNone]
      /\ (forall x, conn_modify_network_interface_attribute conn t2 id
                     (VStr "groupSet") ids VNone = inr x ->
          r.1 = Ret (VDict {[ "result" := x ]}))).
Proof.
  intros Hconn Hsel Hm Hd Hid Hvpc Hv r t1 t2 converted. subst r t1 t2 converted.
  assert (Hav : is_None (VStr "groups") && is_None val = false) by reflexivity.
  split; [intros ids Hc Ht | intros ids Hc Ht; split; [| intros x Hx]];
    (modify_resolved Hconn Hsel Hav Hm Hd Hid;
     rewrite Hvpc; cbn [default eq_str String.eqb Ascii.eqb Bool.eqb];
     unfold Datatypes.id; rewrite Hv;
     cbn [andb]; unfold bind at 1; unfold bind at 1; unfold request at 1;
     rewrite Hc, Ht; cbn [negb]).
  - reflexivity.
  - unfold ret at 1. unfold bind at 1. unfold ret at 1.
    unfold bind, try_except, request, ret.
    destruct (conn_modify_network_interface_attribute conn _ id _ ids VNone)
      as [e | x]; [by destruct (is_EC2ResponseError e) | reflexivity].
  - unfold ret at 1. unfold bind at 1. unfold ret at 1.
    unfold bind, try_except, request, ret. by rewrite Hx.
Qed.

Lemma modify_groups_converted_witness :
  modify_network_interface_attribute world_one (VStr "my_eni") VNone
    (VStr "groups") (VList [VStr "my_group"]) VNone VNone VNone VNone []
  = (Ret (VDict {[ "result" := VBool true ]}),
     ([eni_lookup (VStr "my_eni") VNone]
        ++ [ConvertToGroupIds (VList [VStr "my_group"]) (VStr "vpc-1")])
       ++ [ModifyNetworkInterfaceAttribute (VStr "eni-1") (VStr "groupSet")
             (VList [VStr "sg-1"]) VNone]).
Proof.
  destruct eni1_described as (info & Hd & Hid & Hvpc & _).
  destruct (modify_groups_converted world_one conn_one (VStr "my_eni") VNone
              (VList [VStr "my_group"]) VNone VNone VNone VNone [] eni1 info _ _
              eq_refl eq_refl eq_refl Hd Hid Hvpc eq_refl) as [_ H].
  destruct (H (VList [VStr "sg-1"]) eq_refl eq_refl) as [H2 H1].
  specialize (H1 (VBool true) eq_refl).
  rewrite (surjective_pairing (modify_network_interface_attribute _ _ _ _ _ _ _ _ _ _)).
  rewrite H1, H2. reflexivity.
Defined.

(** X16. [modify_network_interface_attribute] translates
    'source_dest_check' to 'sourceDestCheck' and passes the value on
    unchanged, without an attachment id; it raises [SaltInvocationError]
    before any request only when both [attr] and [value] are [None]. *)
Theorem modify_source_dest_check
    w conn name nid val region key keyid profile t eni info id :
  _get_conn w region key keyid profile = inr conn ->
  truthy (py_or name nid) = true ->
  let modify attr v :=
    modify_network_interface_attribute w name nid attr v region key keyid profile t in
  modify VNone VNone
  = (Raise (SaltInvocationError "attr and value must be provided."), t)
  /\ (eni_matches conn t name nid = inr [eni] ->
      described eni info ->
      info !! "id" = Some id ->
      let t1 := t ++ [eni_lookup name nid] in
      let c := ModifyNetworkInterfaceAttribute id (VStr "sourceDestCheck") val VNone in
      (modify (VStr "source_dest_check") val).2 = t1 ++ [c]
      /\ (forall x, conn_modify_network_interface_attribute conn t1 id
                     (VStr "sourceDestCheck") val VNone = inr x ->
          (modify (VStr "source_dest_check") val).1 = Ret (VDict {[ "result" := x ]}))
      /\ (forall e, conn_modify_network_interface_attribute conn t1 id
                     (VStr "sourceDestCheck") val VNone = inl e ->
          is_EC2ResponseError e = true ->
          (modify (VStr "source_dest_check") val).1
          = Ret (VDict {[ "error" := get_error w e ]}))).
Proof.
  intros Hconn Hsel modify. subst modify. cbn beta. split.
  - unfold modify_network_interface_attribute. by rewrite Hsel.
  - intros Hm Hd Hid. cbn zeta.
    assert (Hav : is_None (VStr "source_dest_check") && is_None val = false)
      by reflexivity.
    split; [| split; [intros x Hx | intros e He Hec2]];
      (modify_resolved Hconn Hsel Hav Hm Hd Hid;
       cbn [eq_str String.eqb Ascii.eqb Bool.eqb]; rewrite andb_false_r;
       unfold bind at 1; unfold ret at 1; unfold bind at 1; unfold ret at 1;
       unfold bind, try_except, request, ret).
    + destruct (conn_modify_network_interface_attribute conn _ id _ val VNone)
        as [e | x]; [by destruct (is_EC2ResponseError e) | reflexivity].
    + by rewrite Hx.
    + by rewrite He, Hec2.
Qed.

Lemma modify_source_dest_check_witness :
  modify_network_interface_attribute world_one (VStr "my_eni") VNone
    (VStr "source_dest_check") (VBool false) VNone VNone VNone VNone []
  = (Ret (VDict {[ "result" := VBool true ]}),
     [eni_lookup (VStr "my_eni") VNone]
       ++ [ModifyNetworkInterfaceAttribute (VStr "eni-1") (VStr "sourceDestCheck")
             (VBool false) VNone]).
Proof.
  destruct eni1_described as (info & Hd & Hid & _).
  destruct (modify_source_dest_check world_one conn_one (VStr "my_eni") VNone
              (VBool false) VNone VNone VNone VNone [] eni1 info (VStr "eni-1")
              eq_refl eq_refl) as [_ H].
  destruct (H eq_refl Hd Hid) as (H2 & H1 & _).
  specialize (H1 (VBool true) eq_refl).
  rewrite (surjective_pairing (modify_network_interface_attribute _ _ _ _ _ _ _ _ _ _)).
  rewrite H1, H2. reflexivity.
Defined.

(** ** Reading a network interface *)

(** X17. [get_network_interface] turns 'not found' into a success:
    [{'result': None}] when nothing matches; it returns the interface's
    description under ['result'] when exactly one matches, and the
    resolver's error envelope when several match. *)
Theorem get_network_interface_cases w conn name nid region key keyid profile t :
  _get_conn w region key keyid profile = inr conn ->
  truthy (py_or name nid) = true ->
  let r := get_network_interface w name nid region key keyid profile t in
  let t1 := t ++ [eni_lookup name nid] in
  (eni_matches conn t name nid = inr [] ->
     r = (Ret (VDict {[ "result" := VNone ]}), t1))
  /\ (forall eni info, eni_matches conn t name nid = inr [eni] ->
      described eni info ->
      r = (Ret (VDict {[ "result" := VDict info ]}), t1))
  /\ (forall l, eni_matches conn t name nid = inr l -> (2 <= length l)%nat ->
      r = (Ret (VDict {[ "error" :=
                  message "Name specified is tagged on multiple ENIs." ]}), t1)).
Proof.
  intros Hconn Hsel r t1. subst r t1.
  split; [intros Hm | split; [intros eni info Hm Hd | intros l Hm Hl]];
    (unfold get_network_interface, lift; rewrite Hconn;
     unfold bind at 1; unfold ret at 1; unfold bind at 1;
     rewrite (_get_network_interface_eq _ _ _ _ _ Hsel), Hm).
  - rewrite has_key_insert_eq.
    unfold bind, getitem. rewrite lookup_insert_eq. unfold ret, message.
    by rewrite lookup_singleton_eq.
  - rewrite has_key_result_only by done.
    unfold bind at 1. cbn [getitem]. rewrite lookup_insert_eq. unfold ret at 1.
    unfold bind. by rewrite (described_eq _ _ _ Hd).
  - destruct l as [| a [| b l]]; simpl in Hl; try lia.
    rewrite has_key_insert_eq.
    unfold bind, getitem. rewrite lookup_insert_eq. unfold ret, message.
    by rewrite lookup_singleton_eq.
Qed.

Lemma get_network_interface_cases_witness :
  get_network_interface world_none (VStr "my_eni") VNone VNone VNone VNone VNone []
  = (Ret (VDict {[ "result" := VNone ]}), [eni_lookup (VStr "my_eni") VNone]).
Proof.
  destruct (get_network_interface_cases world_none conn_none (VStr "my_eni") VNone
              VNone VNone VNone VNone [] eq_refl eq_refl) as [H _].
  apply H. reflexivity.
Defined.

(** X18. [get_network_interface_id] returns the id of the one interface
    tagged with the name, and an error envelope when none or several are;
    when the lookup fails with an [EC2ResponseError] the error it stored is
    lost and [UnboundLocalError] leaves the function. *)
Theorem get_network_interface_id_cases w conn name region key keyid profile t :
  _get_conn w region key keyid profile = inr conn ->
  let answer := conn_get_all_network_interfaces conn t None
                  (Some {[ "tag:Name" := name ]}) in
  let r := get_network_interface_id w name region key keyid profile t in
  let t1 := t ++ [GetAllNetworkInterfaces None (Some {[ "tag:Name" := name ]})] in
  (forall eni id, answer = inr [eni] -> attr_of eni "id" = Some id ->
     r = (Ret (VDict {[ "result" := id ]}), t1))
  /\ (answer = inr [] ->
      r = (Ret (VDict {[ "error" := message "No ENIs found." ]}), t1))
  /\ (forall l, answer = inr l -> (2 <= length l)%nat ->
      r = (Ret (VDict {[ "error" :=
                  message "Name specified is tagged on multiple ENIs." ]}), t1))
  /\ (forall e, answer = inl e -> is_EC2ResponseError e = true ->
      r = (Raise UnboundLocalError, t1)).
Proof.
  intros Hconn answer r t1. subst answer r t1.
  split; [intros eni id Ha Hid
         | split; [intros Ha | split; [intros l Ha Hl | intros e Ha He]]];
    (unfold get_network_interface_id, lift; rewrite Hconn;
     unfold bind at 1; unfold ret at 1; unfold bind at 1;
     unfold try_except, bind at 1, request; rewrite Ha).
  - cbn -[Z.ltb Z.of_nat has_key insert]. unfold bind, ret.
    cbn -[has_key insert]. rewrite has_key_empty.
    cbn -[insert]. by rewrite getattr_attr_of, Hid.
  - cbn -[has_key insert]. unfold bind, ret. cbn -[has_key insert].
    by rewrite has_key_insert_eq.
  - destruct l as [| a [| b l]]; simpl in Hl; try lia.
    cbn -[has_key insert Z.ltb Z.of_nat length]. unfold bind, ret.
    cbn -[has_key insert Z.ltb Z.of_nat length]. rewrite length_two_lt.
    by rewrite has_key_insert_eq.
  - by rewrite He.
Qed.

Lemma get_network_interface_id_cases_witness :
  get_network_interface_id world_one (VStr "my_eni") VNone VNone VNone VNone []
  = (Ret (VDict {[ "result" := VStr "eni-1" ]}),
     [GetAllNetworkInterfaces None (Some {[ "tag:Name" := VStr "my_eni" ]})]).
Proof.
  destruct (get_network_interface_id_cases world_one conn_one (VStr "my_eni")
              VNone VNone VNone VNone [] eq_refl) as [H _].
  apply (H eni1 (VStr "eni-1") eq_refl). reflexivity.
Defined.

(** ** Selectors that name nothing *)

(** X19. Given neither a name nor an interface id, the operations of the
    family raise [SaltInvocationError] and send no request:
    [delete_network_interface], [attach_network_interface] and
    [modify_network_interface_attribute] at once,
    [detach_network_interface] when it has no attachment id either, and
    [get_network_interface] once its handle is built. *)
Theorem network_interface_selector_required
    w name nid region key keyid profile t :
  truthy (py_or name nid) = false ->
  let e := SaltInvocationError "Either name or network_interface_id must be provided." in
  delete_network_interface w name nid region key keyid profile t = (Raise e, t)
  /\ (forall instance_id device_index,
        attach_network_interface w name nid instance_id device_index
          region key keyid profile t = (Raise e, t))
  /\ (forall attr val,
        modify_network_interface_attribute w name nid attr val
          region key keyid profile t = (Raise e, t))
  /\ (forall attachment_id force, truthy attachment_id = false ->
        detach_network_interface w name nid attachment_id force
          region key keyid profile t
        = (Raise (SaltInvocationError
             "Either name or network_interface_id or attachment_id must be provided."),
           t))
  /\ (forall conn, _get_conn w region key keyid profile = inr conn ->
        get_network_interface w name nid region key keyid profile t = (Raise e, t)).
Proof.
  intros Hsel e. subst e. split; [| split; [| split; [| split]]].
  - unfold delete_network_interface. by rewrite Hsel.
  - intros. unfold attach_network_interface. by rewrite Hsel.
  - intros. unfold modify_network_interface_attribute. by rewrite Hsel.
  - intros attachment_id force Ha. unfold detach_network_interface.
    assert (Hs : truthy (py_or (py_or name nid) attachment_id) = false).
    { unfold py_or at 1. by rewrite Hsel. }
    by rewrite Hs.
  - intros conn Hconn. unfold get_network_interface, lift. rewrite Hconn.
    unfold bind, ret, _get_network_interface. by rewrite Hsel.
Qed.

Lemma network_interface_selector_required_witness :
  delete_network_interface world_one VNone (VStr "") VNone VNone VNone VNone []
  = (Raise (SaltInvocationError "Either name or network_interface_id must be provided."),
     []).
Proof.
  apply (network_interface_selector_required world_one VNone (VStr "")
           VNone VNone VNone VNone [] eq_refl).
Defined.

(** ** Creating a network interface, the other paths *)



(** ** Launching an instance, the other paths *)

(** X21. [run] returns [False] when the provider gives no reservation, and
    lets the provider's exception through when the launch request is
    refused; in both cases nothing is polled or tagged, whatever the number
    of iterations allowed. *)
Theorem run_without_reservation
    w conn fuel image_id name tags instance_type key_name security_groups
    user_data placement region key keyid profile t :
  _get_conn w region key keyid profile = inr conn ->
  let answer := conn_run_instances conn t image_id instance_type key_name
                  security_groups user_data placement in
  let r := run w fuel image_id name tags instance_type key_name security_groups
             user_data placement region key keyid profile t in
  let t1 := t ++ [RunInstances image_id instance_type key_name security_groups
                    user_data placement] in
  (forall reservation, answer = inr reservation -> truthy reservation = false ->
     r = (Ret (VBool false), t1))
  /\ (forall e, answer = inl e -> r = (Raise e, t1)).
Proof.
  intros Hconn answer r t1. subst answer r t1.
  unfold run, lift. rewrite Hconn. unfold bind, ret, request.
  split.
  - intros reservation -> Hf. by rewrite Hf.
  - by intros e ->.
Qed.

Lemma run_without_reservation_witness :
  run (demo_world {| conn_get_all_instances := fun _ _ _ => inr [];
                     conn_run_instances := fun _ _ _ _ _ _ _ => inr VNone;
                     conn_get_instance_attribute := fun _ _ _ => inr VNone;
                     conn_modify_instance_attribute := fun _ _ _ _ => inr VNone;
                     conn_get_all_network_interfaces := fun _ _ _ => inr [];
                     conn_create_network_interface := fun _ _ _ _ _ => inr VNone;
                     conn_delete_network_interface := fun _ _ => inr VNone;
                     conn_attach_network_interface := fun _ _ _ _ => inr VNone;
                     conn_detach_network_interface := fun _ _ _ => inr VNone;
                     conn_modify_network_interface_attribute :=
                       fun _ _ _ _ _ => inr VNone |}
         (VStr "pending") (inr VNone))
    7 (VStr "ami-x") VNone VNone (VStr "m1.small") VNone VNone VNone VNone
    VNone VNone VNone VNone []
  = (Ret (VBool false),
     [] ++ [RunInstances (VStr "ami-x") (VStr "m1.small") VNone VNone VNone VNone]).
Proof.
  match goal with
  | |- run (demo_world ?c _ _) _ _ _ _ _ _ _ _ _ _ _ _ _ _ = _ =>
      destruct (run_without_reservation (demo_world c (VStr "pending") (inr VNone)) c
                  7 (VStr "ami-x") VNone VNone (VStr "m1.small") VNone VNone VNone
                  VNone VNone VNone VNone VNone [] eq_refl) as [H _]
  end.
  apply (H VNone eq_refl eq_refl).
Defined.

(** ** The filters of a lookup *)

Lemma tag_key_inj k k' : "tag:" +:+ k = "tag:" +:+ k' -> k = k'.
Proof. simpl. by intros [=]. Qed.

Lemma tag_fold_other (l : list (string * value)) : forall (f : gmap string value) K,
  (forall kv, kv ∈ l -> K <> "tag:" +:+ kv.1) ->
  foldl (fun acc kv => <["tag:" +:+ kv.1 := kv.2]> acc) f l !! K = f !! K.
Proof.
  induction l as [| kv l IH]; intros f K H; [reflexivity |].
  cbn [foldl]. rewrite IH by (intros kv' Hin; apply H; by right).
  apply lookup_insert_ne. apply not_eq_sym, H. by left.
Qed.

Lemma tag_fold_entry (l : list (string * value)) : forall (f : gmap string value) k v,
  NoDup l.*1 -> (k, v) ∈ l ->
  foldl (fun acc kv => <["tag:" +:+ kv.1 := kv.2]> acc) f l !! ("tag:" +:+ k) = Some v.
Proof.
  induction l as [| [k0 v0] l IH]; intros f k v Hnd Hin.
  - by apply not_elem_of_nil in Hin.
  - cbn [foldl]. apply NoDup_cons in Hnd as [Hk0 Hnd].
    apply elem_of_cons in Hin as [[= -> ->] | Hin].
    + rewrite tag_fold_other; [apply lookup_insert_eq |].
      intros [k' v'] Hin Heq. apply tag_key_inj in Heq. cbn [fst] in Heq. subst k'.
      apply Hk0. apply list_elem_of_fmap. by exists (k0, v').
    + by apply IH.
Qed.

(** X22. The loop of [find_instances] over [tags] adds one filter
    ['tag:<name>'] for each tag, with the tag's value, and leaves every
    other filter as it was: so a tag called [Name] replaces the filter made
    from [name]. It sends no request. *)
Theorem tag_filters_entries (d : gmap string value) (f : gmap string value) t :
  exists f',
    tag_filters (VDict d) f t = (Ret f', t)
    /\ (forall k v, d !! k = Some v -> f' !! ("tag:" +:+ k) = Some v)
    /\ (forall K, (forall k, is_Some (d !! k) -> K <> "tag:" +:+ k) -> f' !! K = f !! K).
Proof.
  unfold tag_filters. destruct (truthy (VDict d)) eqn:Ht.
  - eexists. split; [reflexivity |]. split.
    + intros k v Hk. apply tag_fold_entry.
      * apply NoDup_fst_map_to_list.
      * by apply elem_of_map_to_list.
    + intros K HK. apply tag_fold_other. intros [k v] Hin.
      apply elem_of_map_to_list in Hin. apply HK. by eexists.
  - exists f. split; [reflexivity |].
    simpl in Ht. apply negb_false_iff, bool_decide_eq_true in Ht. subst d.
    split; [intros k v Hk; by rewrite lookup_empty in Hk | done].
Qed.

(** A [Name] tag wins over [name]. *)
Lemma tag_filters_Name_example :
  (find_instances world_none VNone (VStr "web")
     (VDict {[ "Name" := VStr "db" ]}) VNone VNone VNone VNone false []).2
  = [GetAllInstances None {[ "tag:Name" := VStr "db" ]}].
Proof. vm_compute. reflexivity. Qed.
